(** * Stability sample generator: a shallow embedding of
      [Stability_Study_Form.py] and the properties of its generation engine.

    The engine is [create_sample_record] and [generate_stability_samples],
    together with the transportation loop of the fourth tab.  Around it the
    file embeds the form's collectors, the four "Generate" handlers and
    [clear_all].  Python strings
    are modelled as [string] (the UTF-8 bytes of the text), Python lists as
    [list], the record dictionary as a [Record] with one field per key, and
    the accumulating [samples] list by explicit state passing: every
    [samples.append(r)] is [samples ++ [r]].

    The generator is duck-typed in its time-point and concentration
    arguments: it only truth-tests them and formats them in f-strings.  The
    class [PyObject] is that interface; Python's [int] and [str] are given
    as instances.  The form passes [float] values; their truth test and
    rendering are another instance of the interface, which is not spelled
    out here, and the statements that quantify over [PyObject] cover it. *)

From Stdlib Require Import List String Ascii ZArith Bool Lia Arith.
From Stdlib Require Import DecimalString DecimalPos DecimalZ.
Import ListNotations.
Open Scope string_scope.

(** ** The Python object protocol used by the engine *)

Class PyObject (A : Type) : Type := {
  truth : A -> bool;   (* bool(x), as tested by `if x` and `not x` *)
  str : A -> string    (* the text `{x}` produces inside an f-string *)
}.

Arguments truth : simpl never.
Arguments str : simpl never.

#[export] Instance PyObject_str : PyObject string := {
  truth s := negb (s =? "");
  str s := s
}.

#[export] Instance PyObject_int : PyObject Z := {
  truth z := negb (z =? 0)%Z;
  str z := NilZero.string_of_int (Z.to_int z)
}.

(** [for i, x in enumerate(l)] *)
Fixpoint enumerate_from {A : Type} (start : nat) (l : list A) : list (nat * A) :=
  match l with
  | [] => []
  | x :: l' => (start, x) :: enumerate_from (S start) l'
  end.

Definition enumerate {A : Type} (l : list A) : list (nat * A) :=
  enumerate_from 0 l.

(** [range(n)] for an integer [n]; empty when [n <= 0]. *)
Definition py_range (n : Z) : list Z :=
  map Z.of_nat (seq 0 (Z.to_nat n)).

(** [int(x)] at an [int] argument. *)
Definition py_int (x : Z) : Z := x.

(** ** [str.strip()]

    Python strips the characters for which [str.isspace] holds.  On the UTF-8
    bytes these are the one-byte characters U+0009..U+000D, U+001C..U+0020,
    the two-byte U+0085 and U+00A0, and the three-byte U+1680, U+2000..U+200A,
    U+2028, U+2029, U+202F, U+205F and U+3000. *)

Definition byte_is (c : ascii) (n : nat) : bool := Nat.eqb (nat_of_ascii c) n.

Definition is_space1 (a : ascii) : bool :=
  let n := nat_of_ascii a in
  (((9 <=? n) && (n <=? 13)) || ((28 <=? n) && (n <=? 32)))%nat.

Definition is_space2 (a b : ascii) : bool :=
  byte_is a 194 && (byte_is b 133 || byte_is b 160).

Definition is_space3 (a b c : ascii) : bool :=
  let n := nat_of_ascii c in
  (byte_is a 225 && byte_is b 154 && byte_is c 128)
  || (byte_is a 226 && byte_is b 128
      && (((128 <=? n)%nat && (n <=? 138)%nat) || byte_is c 168 || byte_is c 169
          || byte_is c 175))
  || (byte_is a 226 && byte_is b 129 && byte_is c 159)
  || (byte_is a 227 && byte_is b 128 && byte_is c 128).

Fixpoint lstrip (s : string) : string :=
  match s with
  | EmptyString => s
  | String a r1 =>
      if is_space1 a then lstrip r1
      else match r1 with
           | EmptyString => s
           | String b r2 =>
               if is_space2 a b then lstrip r2
               else match r2 with
                    | EmptyString => s
                    | String c r3 => if is_space3 a b c then lstrip r3 else s
                    end
           end
  end.

Fixpoint string_rev (s : string) : string :=
  match s with
  | EmptyString => EmptyString
  | String a r => string_rev r ++ String a EmptyString
  end.

(** The same scan from the right end, on the reversed bytes. *)
Fixpoint lstrip_rev (s : string) : string :=
  match s with
  | EmptyString => s
  | String a r1 =>
      if is_space1 a then lstrip_rev r1
      else match r1 with
           | EmptyString => s
           | String b r2 =>
               if is_space2 b a then lstrip_rev r2
               else match r2 with
                    | EmptyString => s
                    | String c r3 =>
                        if is_space3 c b a then lstrip_rev r3 else s
                    end
           end
  end.

Definition rstrip (s : string) : string := string_rev (lstrip_rev (string_rev s)).

Definition strip (s : string) : string := rstrip (lstrip s).

(** ** Controlled vocabulary *)

Definition VOCAB_transportation : list string :=
  ["Control"; "Transport Rep 1"; "Transport Rep 2"; "Transport Rep 3"].

Definition VOCAB_time_units : list string := ["week"; "month"; "year"].

(** ** Sample records *)

(** A cell that holds an [int], a [str] or a value of the caller's type:
    the "Time Point" column receives the literal [0], a time point, or [""]. *)
Inductive PyCell (T : Type) : Type :=
| CInt (z : Z)
| CStr (s : string)
| CVal (t : T).

Arguments CInt {T} z.
Arguments CStr {T} s.
Arguments CVal {T} t.

Record SampleRecord (N T : Type) : Type := mkSample {
  Parent : string;
  Description : string;
  Label : string;
  Micro_Label : string;
  Sample_Date : string;
  Time_Point : PyCell T;
  Time_Point_Units : string;
  Conc : N;
  Storage_Temp : string;
  DS_Temperature : string;
  Formulation : string;
  Experiment_Id : string;
  Storage_Vial_Orientation_Conditions : string;
  Transportation : string;
  Stability_Freeze_Thaw_Count : string
}.

Arguments mkSample {N T}.
Arguments Parent {N T} _.
Arguments Description {N T} _.
Arguments Label {N T} _.
Arguments Micro_Label {N T} _.
Arguments Sample_Date {N T} _.
Arguments Time_Point {N T} _.
Arguments Time_Point_Units {N T} _.
Arguments Conc {N T} _.
Arguments Storage_Temp {N T} _.
Arguments DS_Temperature {N T} _.
Arguments Formulation {N T} _.
Arguments Experiment_Id {N T} _.
Arguments Storage_Vial_Orientation_Conditions {N T} _.
Arguments Transportation {N T} _.
Arguments Stability_Freeze_Thaw_Count {N T} _.

Section Engine.

Context {N T : Type} {ON : PyObject N} {OT : PyObject T}.

(** [create_sample_record]; the [label] argument is accepted and unused, as
    in the source: the "Label" entry is the formatted text. *)
Definition create_sample_record
    (exp_id molecule source formulation parent create_date : string)
    (conc : N) (label micro_label : string) (time_pt : PyCell T)
    (time_unit temp temp_ds vial_o transport freeze_thaw : string)
    : SampleRecord N T :=
  let description :=
    strip (molecule ++ " " ++ source ++ ", " ++ formulation ++ ", "
           ++ str conc ++ " mg/mL, " ++ micro_label ++ " " ++ vial_o) in
  let label_text :=
    strip (molecule ++ " " ++ source ++ ", " ++ formulation ++ ", "
           ++ str conc ++ " mg/mL, " ++ micro_label ++ " " ++ vial_o) in
  {| Parent := parent;
     Description := description;
     Label := label_text;
     Micro_Label := micro_label;
     Sample_Date := create_date;
     Time_Point := time_pt;
     Time_Point_Units := time_unit;
     Conc := conc;
     Storage_Temp := temp;
     DS_Temperature := temp_ds;
     Formulation := formulation;
     Experiment_Id := exp_id;
     Storage_Vial_Orientation_Conditions := vial_o;
     Transportation := transport;
     Stability_Freeze_Thaw_Count := freeze_thaw |}.

(** The [if]/[elif] chain that picks the unit letter. *)
Definition unit_suffix (time_unit : string) : string :=
  if time_unit =? "week" then "w"
  else if time_unit =? "month" then "m"
  else if time_unit =? "year" then "y"
  else "".

(** [formulation_conc if formulation_conc else conc], with [None] falsy. *)
Definition resolve_conc (formulation_conc : option N) (conc : N) : N :=
  match formulation_conc with
  | Some c => if truth c then c else conc
  | None => conc
  end.

Definition resolve_parent (formulation_parent parent : string) : string :=
  if truth formulation_parent then formulation_parent else parent.

Section Generate.

Variables (exp_id molecule source parent create_date : string) (conc : N).
Variables (formulation formulation_parent : string) (formulation_conc : option N).
Variables (time_points : list T) (time_units : list string).
Variables (temperatures vial_orientations : list string).
Variables (matrix : list (list bool)) (extra_vials : list Z).
Variable (study_type : string).

Let prnt := resolve_parent formulation_parent parent.
Let cnc := resolve_conc formulation_conc conc.

(** The T0 record of lines 83-90. *)
Definition t0_record : SampleRecord N T :=
  let t0_label := if study_type =? "DP" then "t0" else "t0, DS" in
  let t0_time_unit :=
    if negb (Nat.eqb (List.length time_units) 0) && truth (nth 0 time_units "")
    then nth 0 time_units "" else "" in
  create_sample_record exp_id molecule source formulation prnt create_date cnc
    t0_label t0_label (CInt 0) t0_time_unit "" "" "" "" "".

(** Body of the inner loop [for j, temp in enumerate(temperatures)] of the
    time-point expansion, lines 99-128. *)
Definition matrix_cell_body (i : nat) (time_pt : T) (time_unit : string)
    (samples : list (SampleRecord N T)) (jt : nat * string)
    : list (SampleRecord N T) :=
  let '(j, temp) := jt in
  if negb (truth temp) then samples
  else if (i <? List.length matrix)%nat && (j <? List.length (nth i matrix []))%nat
          && nth j (nth i matrix []) false
  then
    let vial_o :=
      if (j <? List.length vial_orientations)%nat then nth j vial_orientations "" else "" in
    let suffix := unit_suffix time_unit in
    let micro_label :=
      if study_type =? "DP"
      then temp ++ ", " ++ str time_pt ++ suffix
      else temp ++ ", " ++ str time_pt ++ suffix ++ " DS" in
    let temp_field := if study_type =? "DP" then temp else "" in
    let temp_ds_field := if study_type =? "DS" then temp else "" in
    (samples ++
      [create_sample_record exp_id molecule source formulation prnt create_date
         cnc micro_label micro_label (CVal time_pt) time_unit temp_field
         temp_ds_field vial_o "" ""])%list
  else samples.

(** Body of the outer loop [for i, time_pt in enumerate(time_points)]. *)
Definition time_point_body (samples : list (SampleRecord N T)) (it : nat * T)
    : list (SampleRecord N T) :=
  let '(i, time_pt) := it in
  if negb (truth time_pt) then samples
  else
    let time_unit := if (i <? List.length time_units)%nat then nth i time_units "" else "" in
    fold_left (matrix_cell_body i time_pt time_unit) (enumerate temperatures)
      samples.

(** Body of the inner loop [for k in range(int(extra_count))]. *)
Definition extra_vial_body (temp vial_o : string)
    (samples : list (SampleRecord N T)) (k : Z) : list (SampleRecord N T) :=
  let micro_label := temp ++ ", extra" ++ str (k + 1)%Z in
  let temp_field := if study_type =? "DP" then temp else "" in
  let temp_ds_field := if study_type =? "DS" then temp else "" in
  (samples ++
    [create_sample_record exp_id molecule source formulation prnt create_date
       cnc micro_label micro_label (CStr "") "" temp_field temp_ds_field
       vial_o "" ""])%list.

(** Body of the loop over temperatures of the extra vials, lines 131-146. *)
Definition extra_temp_body (samples : list (SampleRecord N T))
    (jt : nat * string) : list (SampleRecord N T) :=
  let '(j, temp) := jt in
  if negb (truth temp) then samples
  else
    let extra_count := if (j <? List.length extra_vials)%nat then nth j extra_vials 0%Z else 0%Z in
    let vial_o :=
      if (j <? List.length vial_orientations)%nat then nth j vial_orientations "" else "" in
    fold_left (extra_vial_body temp vial_o) (py_range (py_int extra_count))
      samples.

Definition generate_stability_samples : list (SampleRecord N T) :=
  let samples := [] in
  let samples := (samples ++ [t0_record])%list in
  let samples := fold_left time_point_body (enumerate time_points) samples in
  let samples := fold_left extra_temp_body (enumerate temperatures) samples in
  samples.

End Generate.

End Engine.

(** ** The transportation tab

    The handler appends to the session's sample list; the list is threaded
    through the loops.  [micro_map[transport_label]] raises [KeyError] on a
    missing key: the lookup returns [option] and the loops propagate [None]. *)

Definition micro_map : list (string * string) :=
  [("Control", "ctrl"); ("Transport Rep 1", "trans1");
   ("Transport Rep 2", "trans2"); ("Transport Rep 3", "trans3")].

Fixpoint dict_getitem (d : list (string * string)) (key : string) : option string :=
  match d with
  | [] => None
  | (k, v) :: d' => if k =? key then Some v else dict_getitem d' key
  end.

(** One entry of the [tr_formulations] list: the dictionary with keys
    ['formulation'], ['parent'] and ['concentration']. *)
Record FormData (N : Type) : Type := mkFormData {
  fd_formulation : string;
  fd_parent : string;
  fd_concentration : option N
}.

Arguments mkFormData {N}.
Arguments fd_formulation {N} _.
Arguments fd_parent {N} _.
Arguments fd_concentration {N} _.

(** ['concentration': form_conc if form_conc > 0 else None], the form's
    normalisation of the optional concentration, at an [int]. *)
Definition collect_concentration (form_conc : Z) : option Z :=
  if (form_conc >? 0)%Z then Some form_conc else None.

Section Transportation.

Context {N T : Type} {ON : PyObject N} {OT : PyObject T}.

Variables (exp_id molecule source parent create_date : string) (concentration : N).

(** Body of [for transport_label in VOCAB["transportation"]], lines 476-486
    and 491-501 (the two loops have the same body up to the formulation
    name). *)
Definition transport_label_body (formulation prnt : string) (cnc : N)
    (acc : option (list (SampleRecord N T))) (transport_label : string)
    : option (list (SampleRecord N T)) :=
  match acc with
  | None => None
  | Some samples =>
      match dict_getitem micro_map transport_label with
      | None => None
      | Some micro =>
          Some (samples ++
                [create_sample_record exp_id molecule source formulation prnt
                   create_date cnc transport_label micro (CStr "") "" "" "" ""
                   transport_label ""])%list
      end
  end.

(** Body of [for surf in surfactants], lines 489-501. *)
Definition surfactant_body (form_data : FormData N) (prnt : string) (cnc : N)
    (acc : option (list (SampleRecord N T))) (surf : string)
    : option (list (SampleRecord N T)) :=
  let full_form := fd_formulation form_data ++ surf in
  fold_left (transport_label_body full_form prnt cnc) VOCAB_transportation acc.

(** Body of [for form_data in tr_formulations], lines 471-501. *)
Definition tab4_form_body (surfactants : list string)
    (acc : option (list (SampleRecord N T))) (form_data : FormData N)
    : option (list (SampleRecord N T)) :=
  let prnt := if truth (fd_parent form_data) then fd_parent form_data else parent in
  let cnc := resolve_conc (fd_concentration form_data) concentration in
  let acc :=
    fold_left (transport_label_body (fd_formulation form_data) prnt cnc)
      VOCAB_transportation acc in
  fold_left (surfactant_body form_data prnt cnc) surfactants acc.

Definition tab4_generate (tr_formulations : list (FormData N))
    (surfactants : list string) (session_samples : list (SampleRecord N T))
    : option (list (SampleRecord N T)) :=
  fold_left (tab4_form_body surfactants) tr_formulations (Some session_samples).

End Transportation.

(** ** The emission order in the words of the specification

    These definitions follow the specification's description of the three
    groups of records; the theorems below compare them with the loops. *)

(** A matrix cell out of bounds of either dimension is unset. *)
Definition cell_selected (matrix : list (list bool)) (i j : nat) : bool :=
  match nth_error matrix i with
  | Some row => match nth_error row j with Some b => b | None => false end
  | None => false
  end.

(** The entry of a list aligned by index, or the default when there is none. *)
Definition aligned {A : Type} (l : list A) (i : nat) (d : A) : A :=
  match nth_error l i with Some x => x | None => d end.

Section Spec.

Context {N T : Type} {ON : PyObject N} {OT : PyObject T}.

Variables (exp_id molecule source parent create_date : string) (conc : N).
Variables (formulation formulation_parent : string) (formulation_conc : option N).
Variables (time_points : list T) (time_units : list string).
Variables (temperatures vial_orientations : list string).
Variables (matrix : list (list bool)) (extra_vials : list Z).
Variable (study_type : string).

Definition is_DP : bool := study_type =? "DP".

Definition spec_t0_record : SampleRecord N T :=
  create_sample_record exp_id molecule source formulation
    (resolve_parent formulation_parent parent) create_date
    (resolve_conc formulation_conc conc)
    (if is_DP then "t0" else "t0, DS") (if is_DP then "t0" else "t0, DS")
    (CInt 0)
    (match time_units with u :: _ => u | [] => "" end)
    "" "" "" "" "".

Definition spec_matrix_label (temp : string) (time_pt : T) (time_unit : string)
    : string :=
  temp ++ ", " ++ str time_pt ++ unit_suffix time_unit
       ++ (if is_DP then "" else " DS").

Definition spec_matrix_record (i : nat) (time_pt : T) (j : nat) (temp : string)
    : SampleRecord N T :=
  let time_unit := aligned time_units i "" in
  let label := spec_matrix_label temp time_pt time_unit in
  create_sample_record exp_id molecule source formulation
    (resolve_parent formulation_parent parent) create_date
    (resolve_conc formulation_conc conc)
    label label (CVal time_pt) time_unit
    (if is_DP then temp else "") (if study_type =? "DS" then temp else "")
    (aligned vial_orientations j "") "" "".

Definition spec_extra_label (temp : string) (k : Z) : string :=
  temp ++ ", extra" ++ str k.

Definition spec_extra_record (j : nat) (temp : string) (k : Z)
    : SampleRecord N T :=
  let label := spec_extra_label temp k in
  create_sample_record exp_id molecule source formulation
    (resolve_parent formulation_parent parent) create_date
    (resolve_conc formulation_conc conc)
    label label (CStr "") ""
    (if is_DP then temp else "") (if study_type =? "DS" then temp else "")
    (aligned vial_orientations j "") "" "".

(** The extra indices 1..count, ascending. *)
Definition one_to (count : Z) : list Z :=
  map (fun k => Z.of_nat k) (seq 1 (Z.to_nat count)).

(** Time points in list order; within each, temperatures in list order. *)
Definition spec_matrix_records : list (SampleRecord N T) :=
  flat_map (fun '(i, time_pt) =>
    if truth time_pt then
      flat_map (fun '(j, temp) =>
        if truth temp && cell_selected matrix i j
        then [spec_matrix_record i time_pt j temp] else [])
        (enumerate temperatures)
    else [])
    (enumerate time_points).

(** The extra-vial records of the temperature at index [j]. *)
Definition spec_extra_block (jt : nat * string) : list (SampleRecord N T) :=
  let '(j, temp) := jt in
  if truth temp
  then map (spec_extra_record j temp) (one_to (aligned extra_vials j 0%Z))
  else [].

(** Temperatures in list order; within each, extra indices ascending. *)
Definition spec_extra_records : list (SampleRecord N T) :=
  flat_map spec_extra_block (enumerate temperatures).

End Spec.

(** ** Reading the records

    The three groups of records differ in the "Time Point" entry: the T0
    record holds the integer [0], a matrix-expansion record its time point,
    an extra-vial record the empty string. *)

Definition is_t0_record {N T : Type} (r : SampleRecord N T) : bool :=
  match Time_Point r with CInt _ => true | _ => false end.

Definition is_matrix_record {N T : Type} (r : SampleRecord N T) : bool :=
  match Time_Point r with CVal _ => true | _ => false end.

Definition is_extra_record {N T : Type} (r : SampleRecord N T) : bool :=
  match Time_Point r with CStr _ => true | _ => false end.

(** A text field is populated when it is not the empty string. *)
Definition populated (s : string) : bool := negb (s =? "").

(** Exactly one of the two temperature entries is populated. *)
Definition exactly_one_temperature {N T : Type} (r : SampleRecord N T) : bool :=
  xorb (populated (Storage_Temp r)) (populated (DS_Temperature r)).

(** ** Counting the selected cells

    A cell [(i, j)] counts when [selectionMatrix[i][j]] is true, the time
    point at [i] is not zero or empty, and the temperature label at [j] is
    not empty.  The cells considered have [i] within the time-point list and
    [j] within the temperature list. *)

Definition cell_counts {T : Type} {OT : PyObject T} (time_points : list T)
    (temperatures : list string) (matrix : list (list bool))
    (ij : nat * nat) : bool :=
  let '(i, j) := ij in
  cell_selected matrix i j
  && match nth_error time_points i with
     | Some time_pt => truth time_pt
     | None => false
     end
  && match nth_error temperatures j with
     | Some temp => truth temp
     | None => false
     end.

Definition count_selected_cells {T : Type} {OT : PyObject T}
    (time_points : list T) (temperatures : list string)
    (matrix : list (list bool)) : nat :=
  List.length
    (filter (cell_counts time_points temperatures matrix)
       (list_prod (seq 0 (List.length time_points))
                  (seq 0 (List.length temperatures)))).

(** ** The transportation records in the words of the specification *)

Section TransportSpec.

Context {N T : Type} {ON : PyObject N} {OT : PyObject T}.

Variables (exp_id molecule source parent create_date : string) (concentration : N).

Definition spec_transport_record (formulation prnt : string) (cnc : N)
    (transport_label micro : string) : SampleRecord N T :=
  create_sample_record exp_id molecule source formulation prnt create_date cnc
    transport_label micro (CStr "") "" "" "" "" transport_label "".

(** The 4-entry block: Control and Transport Rep 1/2/3. *)
Definition spec_transport_block (formulation prnt : string) (cnc : N)
    : list (SampleRecord N T) :=
  [spec_transport_record formulation prnt cnc "Control" "ctrl";
   spec_transport_record formulation prnt cnc "Transport Rep 1" "trans1";
   spec_transport_record formulation prnt cnc "Transport Rep 2" "trans2";
   spec_transport_record formulation prnt cnc "Transport Rep 3" "trans3"].

(** The formulation names of one base formulation: the base name, then the
    base name followed directly by each surfactant name. *)
Definition spec_transport_names (base : string) (surfactants : list string)
    : list string :=
  base :: map (fun surf => base ++ surf) surfactants.

Definition spec_form_records (surfactants : list string) (form_data : FormData N)
    : list (SampleRecord N T) :=
  flat_map (fun name =>
      spec_transport_block name
        (resolve_parent (fd_parent form_data) parent)
        (resolve_conc (fd_concentration form_data) concentration))
    (spec_transport_names (fd_formulation form_data) surfactants).

End TransportSpec.

(** ** Micro-labels

    The text a time point contributes to a micro-label is its rendered value
    followed by the unit letter.  A plain numeral is a non-empty text of
    digits, signs and decimal points, as Python renders its numbers in
    positional notation. *)

Fixpoint all_chars (p : ascii -> bool) (s : string) : bool :=
  match s with
  | EmptyString => true
  | String c r => p c && all_chars p r
  end.

Definition is_digit (c : ascii) : bool :=
  let n := nat_of_ascii c in ((48 <=? n) && (n <=? 57))%nat.

Definition plain_char (c : ascii) : bool :=
  is_digit c || Ascii.eqb c "-" || Ascii.eqb c ".".

Definition plain_numeral (s : string) : bool :=
  negb (s =? "") && all_chars plain_char s.

Definition not_comma (c : ascii) : bool := negb (Ascii.eqb c ",").

Definition no_comma (s : string) : bool := all_chars not_comma s.

Definition time_text {T : Type} {OT : PyObject T} (time_units : list string)
    (it : nat * T) : string :=
  str (snd it) ++ unit_suffix (aligned time_units (fst it) "").

(** The texts of the time points that are not skipped, in list order. *)
Definition time_texts {T : Type} {OT : PyObject T} (time_points : list T)
    (time_units : list string) : list string :=
  map (time_text time_units)
    (filter (fun it => truth (snd it)) (enumerate time_points)).

(** What a record was emitted for: the T0 sample, a temperature and a time
    text, or a temperature and an extra index. *)
Inductive origin : Type :=
| OriginT0
| OriginCell (temp text : string)
| OriginExtra (temp : string) (k : Z).

Definition origin_temp (o : origin) : string :=
  match o with
  | OriginT0 => ""
  | OriginCell temp _ => temp
  | OriginExtra temp _ => temp
  end.

Definition origin_text (o : origin) : string :=
  match o with
  | OriginCell _ text => text
  | _ => ""
  end.

(** The text that closes a matrix-expansion micro-label. *)
Definition ds_tail (dp : bool) : string := if dp then "" else " DS".

Definition origin_label (dp : bool) (o : origin) : string :=
  match o with
  | OriginT0 => if dp then "t0" else "t0, DS"
  | OriginCell temp text => temp ++ ", " ++ text ++ ds_tail dp
  | OriginExtra temp k => temp ++ ", extra" ++ str k
  end.

Definition cell_origins {T : Type} {OT : PyObject T} (time_points : list T)
    (time_units temperatures : list string) (matrix : list (list bool))
    : list origin :=
  flat_map (fun it : nat * T =>
    if truth (snd it) then
      flat_map (fun jt : nat * string =>
        if truth (snd jt) && cell_selected matrix (fst it) (fst jt)
        then [OriginCell (snd jt) (time_text time_units it)] else [])
        (enumerate temperatures)
    else [])
    (enumerate time_points).

Definition extra_origins (temperatures : list string) (extra_vials : list Z)
    : list origin :=
  flat_map (fun jt : nat * string =>
    if truth (snd jt)
    then map (OriginExtra (snd jt)) (one_to (aligned extra_vials (fst jt) 0%Z))
    else [])
    (enumerate temperatures).

Definition origins {T : Type} {OT : PyObject T} (time_points : list T)
    (time_units temperatures : list string) (matrix : list (list bool))
    (extra_vials : list Z) : list origin :=
  (OriginT0 :: cell_origins time_points time_units temperatures matrix
     ++ extra_origins temperatures extra_vials)%list.

(** An origin whose time text is comma-free and begins with a numeral
    character. *)
Definition good_origin (o : origin) : Prop :=
  match o with
  | OriginCell _ text =>
      no_comma text = true
      /\ exists c r, text = String c r /\ plain_char c = true
  | _ => True
  end.

(** ** The form: collecting the inputs

    The widgets of one row are read in a loop and the row is kept when its
    text is not empty; the rows are given as the list of the widgets'
    values. *)

(** Lines 189-204 (and 287-302, 372-387, 434-450): the formulation rows. *)
Definition collect_formulations (rows : list (string * string * Z))
    : list (FormData Z) :=
  fold_left (fun acc (row : string * string * Z) =>
      let '(form, form_parent, form_conc) := row in
      if truth form
      then (acc ++ [mkFormData form form_parent
                      (collect_concentration form_conc)])%list
      else acc)
    rows [].

(** Lines 456-463: the surfactant inputs. *)
Definition collect_surfactants (inputs : list string) : list string :=
  fold_left (fun acc surf => if truth surf then (acc ++ [surf])%list else acc)
    inputs [].

(** Lines 393-400: the cycle inputs with their "Include" boxes. *)
Definition collect_cycles (rows : list (Z * bool)) : list Z :=
  fold_left (fun acc (row : Z * bool) =>
      let '(cycle, include) := row in
      if include then (acc ++ [cycle])%list else acc)
    rows [].

(** ** The button handlers

    A handler shows one notice, [st.error] or [st.success], and leaves the
    session's sample list as it found it or extended. *)

Inductive notice : Type :=
| NoticeError (msg : string)
| NoticeSuccess (msg : string).

(** [all([...])] on texts. *)
Definition py_all (l : list string) : bool := forallb truth l.

(** The truth value of a list: it is not empty. *)
Definition list_truth {A : Type} (l : list A) : bool :=
  negb (Nat.eqb (List.length l) 0).

(** [sum(...)] of integers, from 0, left to right. *)
Definition py_sum (l : list Z) : Z := fold_left Z.add l 0%Z.

Definition MSG_required : string :=
  "Please fill in all required study information fields".

Section Tabs.

Context {N T : Type} {ON : PyObject N} {OT : PyObject T}.

Variables (exp_id molecule source parent create_date : string) (concentration : N).

(** The generator call of the DP and DS tabs for one formulation. *)
Definition tab_generate_call (times : list T) (units temps vials : list string)
    (matrix : list (list bool)) (extras : list Z) (study_type : string)
    (form_data : FormData N) : list (SampleRecord N T) :=
  generate_stability_samples exp_id molecule source parent create_date
    concentration (fd_formulation form_data) (fd_parent form_data)
    (fd_concentration form_data) times units temps vials matrix extras
    study_type.

(** Lines 258-274: "Generate DP Samples". *)
Definition tab1_generate (dp_formulations : list (FormData N))
    (dp_times : list T) (dp_units dp_temps dp_vials : list string)
    (dp_matrix : list (list bool)) (dp_extras : list Z)
    (session_samples : list (SampleRecord N T))
    : notice * list (SampleRecord N T) :=
  if negb (py_all [exp_id; molecule; source; parent])
  then (NoticeError MSG_required, session_samples)
  else if negb (list_truth dp_formulations)
  then (NoticeError "Please add at least one formulation", session_samples)
  else
    let session_samples :=
      fold_left (fun session form_data =>
          let samples :=
            tab_generate_call dp_times dp_units dp_temps dp_vials dp_matrix
              dp_extras "DP" form_data in
          (session ++ samples)%list)
        dp_formulations session_samples in
    let total :=
      py_sum (map (fun fd =>
                Z.of_nat (List.length
                  (tab_generate_call dp_times dp_units dp_temps dp_vials
                     dp_matrix dp_extras "DP" fd)))
              dp_formulations) in
    (NoticeSuccess ("✅ Generated " ++ str total ++ " DP samples!"),
     session_samples).

(** Lines 345-360: "Generate DS Samples"; the orientation list is [[]]. *)
Definition tab2_generate (ds_formulations : list (FormData N))
    (ds_times : list T) (ds_units ds_temps : list string)
    (ds_matrix : list (list bool)) (ds_extras : list Z)
    (session_samples : list (SampleRecord N T))
    : notice * list (SampleRecord N T) :=
  if negb (py_all [exp_id; molecule; source; parent])
  then (NoticeError MSG_required, session_samples)
  else if negb (list_truth ds_formulations)
  then (NoticeError "Please add at least one DS formulation", session_samples)
  else
    let session_samples :=
      fold_left (fun session form_data =>
          let samples :=
            tab_generate_call ds_times ds_units ds_temps [] ds_matrix
              ds_extras "DS" form_data in
          (session ++ samples)%list)
        ds_formulations session_samples in
    (NoticeSuccess "✅ Generated DS samples!", session_samples).

(** Body of [for cycle in ft_cycles], lines 412-419. *)
Definition ft_cycle_body (form_data : FormData N) (prnt : string) (cnc : N)
    (session : list (SampleRecord N T)) (cycle : Z)
    : list (SampleRecord N T) :=
  let micro_label := str cycle ++ "X FT" in
  let sample :=
    create_sample_record exp_id molecule source (fd_formulation form_data)
      prnt create_date cnc micro_label micro_label (CStr "") "" "" "" "" ""
      (str cycle) in
  (session ++ [sample])%list.

(** Body of [for form_data in ft_formulations], lines 408-419. *)
Definition ft_form_body (ft_cycles : list Z)
    (session : list (SampleRecord N T)) (form_data : FormData N)
    : list (SampleRecord N T) :=
  let prnt := if truth (fd_parent form_data) then fd_parent form_data else parent in
  let cnc := resolve_conc (fd_concentration form_data) concentration in
  fold_left (ft_cycle_body form_data prnt cnc) ft_cycles session.

(** Lines 402-422: "Generate F/T Samples". *)
Definition tab3_generate (ft_formulations : list (FormData N))
    (ft_cycles : list Z) (session_samples : list (SampleRecord N T))
    : notice * list (SampleRecord N T) :=
  if negb (py_all [exp_id; molecule; source; parent])
  then (NoticeError MSG_required, session_samples)
  else if negb (list_truth ft_formulations) || negb (list_truth ft_cycles)
  then (NoticeError "Please add formulations and cycles", session_samples)
  else
    let session_samples :=
      fold_left (ft_form_body ft_cycles) ft_formulations session_samples in
    (NoticeSuccess
       ("✅ Generated "
        ++ str (Z.of_nat (List.length ft_formulations)
                * Z.of_nat (List.length ft_cycles))%Z
        ++ " F/T samples!"),
     session_samples).

(** Lines 465-504: "Generate Transportation Samples"; [None] is the
    [KeyError] of the dictionary lookup. *)
Definition tab4_click (tr_formulations : list (FormData N))
    (surfactants : list string) (session_samples : list (SampleRecord N T))
    : option (notice * list (SampleRecord N T)) :=
  if negb (py_all [exp_id; molecule; source; parent])
  then Some (NoticeError MSG_required, session_samples)
  else if negb (list_truth tr_formulations)
  then Some (NoticeError "Please add at least one formulation", session_samples)
  else
    match tab4_generate exp_id molecule source parent create_date concentration
            tr_formulations surfactants session_samples with
    | Some session_samples =>
        Some (NoticeSuccess "✅ Generated transportation samples!",
              session_samples)
    | None => None
    end.

End Tabs.

(** ** The session state and [clear_all]

    The session state is used as a dictionary: keys in insertion order, one
    entry per key.  A value is the sample list or a widget's value. *)

Inductive session_value (R W : Type) : Type :=
| SamplesValue (samples : list R)
| WidgetValue (w : W).

Arguments SamplesValue {R W} samples.
Arguments WidgetValue {R W} w.

Section Session.

Context {V : Type}.

Fixpoint state_get (s : list (string * V)) (key : string) : option V :=
  match s with
  | [] => None
  | (k, v) :: s' => if k =? key then Some v else state_get s' key
  end.

(** [s[key] = v]: the entry is replaced in place, or added at the end. *)
Fixpoint state_set (s : list (string * V)) (key : string) (v : V)
    : list (string * V) :=
  match s with
  | [] => [(key, v)]
  | (k, v') :: s' =>
      if k =? key then (k, v) :: s' else (k, v') :: state_set s' key v
  end.

(** [del s[key]] *)
Fixpoint state_del (s : list (string * V)) (key : string) : list (string * V) :=
  match s with
  | [] => []
  | (k, v) :: s' =>
      if k =? key then state_del s' key else (k, v) :: state_del s' key
  end.

Definition state_keys (s : list (string * V)) : list string := map fst s.

End Session.

(** [clear_all], lines 38-43. *)
Definition clear_all {R W : Type} (session_state : list (string * session_value R W))
    : list (string * session_value R W) :=
  let session_state := state_set session_state "samples" (SamplesValue []) in
  fold_left (fun state key =>
      if negb (key =? "samples") then state_del state key else state)
    (state_keys session_state) session_state.

(** ** Whitespace at the ends of a text *)

Definition starts_with_space (s : string) : bool :=
  match s with
  | EmptyString => false
  | String a r1 =>
      is_space1 a
      || match r1 with
         | EmptyString => false
         | String b r2 =>
             is_space2 a b
             || match r2 with
                | EmptyString => false
                | String c _ => is_space3 a b c
                end
         end
  end.

(** The same test on the reversed bytes. *)
Definition starts_with_space_rev (s : string) : bool :=
  match s with
  | EmptyString => false
  | String a r1 =>
      is_space1 a
      || match r1 with
         | EmptyString => false
         | String b r2 =>
             is_space2 b a
             || match r2 with
                | EmptyString => false
                | String c _ => is_space3 c b a
                end
         end
  end.

Definition ends_with_space (s : string) : bool :=
  starts_with_space_rev (string_rev s).

(** * Proofs *)

(** ** Strings *)

Lemma string_app_nil_r (s : string) : s ++ "" = s.
Proof. induction s as [|a s IH]; simpl; [reflexivity|now rewrite IH]. Qed.

Lemma string_app_assoc (s1 s2 s3 : string) : (s1 ++ s2) ++ s3 = s1 ++ s2 ++ s3.
Proof. induction s1 as [|a s1 IH]; simpl; [reflexivity|now rewrite IH]. Qed.

Lemma string_length_app (s1 s2 : string) :
  String.length (s1 ++ s2) = (String.length s1 + String.length s2)%nat.
Proof. induction s1 as [|a s1 IH]; simpl; [reflexivity|now rewrite IH]. Qed.

(** ** Lists and loops *)

Lemma fold_left_appending {A B : Type} (f : list B -> A -> list B)
    (g : A -> list B) :
  (forall acc x, f acc x = (acc ++ g x)%list) ->
  forall l acc, fold_left f l acc = (acc ++ flat_map g l)%list.
Proof.
  intros Hf l; induction l as [|x l IH]; intros acc; simpl.
  - now rewrite app_nil_r.
  - rewrite IH, Hf, <- app_assoc. reflexivity.
Qed.

Lemma guarded_index {A : Type} (l : list A) (i : nat) (d : A) :
  (if (i <? List.length l)%nat then nth i l d else d) = aligned l i d.
Proof.
  unfold aligned.
  destruct (Nat.ltb_spec i (List.length l)) as [Hlt|Hge].
  - destruct (nth_error l i) eqn:E.
    + now apply nth_error_nth.
    + apply nth_error_None in E. lia.
  - apply nth_error_None in Hge. now rewrite Hge.
Qed.

Lemma guarded_cell (matrix : list (list bool)) (i j : nat) :
  (i <? List.length matrix)%nat && (j <? List.length (nth i matrix []))%nat
    && nth j (nth i matrix []) false
  = cell_selected matrix i j.
Proof.
  unfold cell_selected.
  destruct (Nat.ltb_spec i (List.length matrix)) as [Hi|Hi]; simpl.
  - destruct (nth_error matrix i) as [row|] eqn:E.
    + rewrite (nth_error_nth _ _ [] E).
      pose proof (guarded_index row j false) as G. unfold aligned in G.
      destruct (Nat.ltb_spec j (List.length row)); simpl.
      * exact G.
      * exact G.
    + apply nth_error_None in E. lia.
  - apply nth_error_None in Hi. now rewrite Hi.
Qed.

Lemma py_range_shift (n : Z) :
  map (fun k => (k + 1)%Z) (py_range n) = one_to n.
Proof.
  unfold py_range, one_to. rewrite map_map, <- seq_shift, map_map.
  apply map_ext. intros k. lia.
Qed.

Lemma enumerate_from_nth {A : Type} (l : list A) :
  forall start i x,
    In (i, x) (enumerate_from start l) <->
    (start <= i)%nat /\ nth_error l (i - start) = Some x.
Proof.
  induction l as [|y l IH]; intros start i x; simpl.
  - split; [tauto|]. intros [_ H]. destruct (i - start)%nat; discriminate.
  - rewrite IH. split.
    + intros [E|[Hle Hn]].
      * inversion E; subst. rewrite Nat.sub_diag. auto.
      * split; [lia|]. replace (i - start)%nat with (S (i - S start)) by lia.
        exact Hn.
    + intros [Hle Hn]. destruct (i - start)%nat as [|m] eqn:E.
      * left. inversion Hn; subst. f_equal. lia.
      * right. split; [lia|]. replace (i - S start)%nat with m by lia.
        exact Hn.
Qed.

Lemma enumerate_nth {A : Type} (l : list A) (i : nat) (x : A) :
  In (i, x) (enumerate l) <-> nth_error l i = Some x.
Proof.
  unfold enumerate. rewrite enumerate_from_nth, Nat.sub_0_r.
  split; [tauto|]. split; [lia|assumption].
Qed.

Lemma enumerate_from_snd {A : Type} (l : list A) :
  forall start, map snd (enumerate_from start l) = l.
Proof.
  induction l as [|x l IH]; intros start; simpl; [reflexivity|].
  now rewrite IH.
Qed.

Lemma map_flat_map {A B C : Type} (f : B -> C) (g : A -> list B) (l : list A) :
  map f (flat_map g l) = flat_map (fun x => map f (g x)) l.
Proof.
  induction l as [|x l IH]; simpl; [reflexivity|].
  now rewrite map_app, IH.
Qed.

(** ** The loops compute the specified sequence *)

Section Unfold.

Context {N T : Type} {ON : PyObject N} {OT : PyObject T}.

Variables (exp_id molecule source parent create_date : string) (conc : N).
Variables (formulation formulation_parent : string) (formulation_conc : option N).
Variables (time_points : list T) (time_units : list string).
Variables (temperatures vial_orientations : list string).
Variables (matrix : list (list bool)) (extra_vials : list Z).
Variable (study_type : string).

Local Abbreviation generate :=
  (generate_stability_samples (N:=N) (T:=T) exp_id molecule source parent create_date conc
     formulation formulation_parent formulation_conc time_points time_units
     temperatures vial_orientations matrix extra_vials study_type).
Local Abbreviation t0 :=
  (spec_t0_record (N:=N) (T:=T) exp_id molecule source parent create_date conc formulation
     formulation_parent formulation_conc time_units study_type).
Local Abbreviation matrix_record :=
  (spec_matrix_record (N:=N) (T:=T) exp_id molecule source parent create_date conc
     formulation formulation_parent formulation_conc time_units
     vial_orientations study_type).
Local Abbreviation extra_record :=
  (spec_extra_record (N:=N) (T:=T) exp_id molecule source parent create_date conc
     formulation formulation_parent formulation_conc vial_orientations
     study_type).
Local Abbreviation matrix_records :=
  (spec_matrix_records (N:=N) (T:=T) exp_id molecule source parent create_date conc
     formulation formulation_parent formulation_conc time_points time_units
     temperatures vial_orientations matrix study_type).
Local Abbreviation extra_block :=
  (spec_extra_block (N:=N) (T:=T) exp_id molecule source parent create_date conc
     formulation formulation_parent formulation_conc vial_orientations
     extra_vials study_type).
Local Abbreviation extra_records :=
  (spec_extra_records (N:=N) (T:=T) exp_id molecule source parent create_date conc
     formulation formulation_parent formulation_conc temperatures
     vial_orientations extra_vials study_type).

Lemma t0_record_spec :
  t0_record exp_id molecule source parent create_date conc formulation
    formulation_parent formulation_conc time_units study_type = t0.
Proof.
  unfold t0_record, spec_t0_record, is_DP. f_equal.
  destruct time_units as [|u us]; simpl; [reflexivity|].
  unfold truth; simpl.
  destruct (u =? "") eqn:E; simpl; [|reflexivity].
  apply String.eqb_eq in E. now subst.
Qed.

Lemma matrix_cell_body_spec (i : nat) (time_pt : T) samples (jt : nat * string) :
  matrix_cell_body exp_id molecule source parent create_date conc formulation
    formulation_parent formulation_conc vial_orientations matrix study_type
    i time_pt (aligned time_units i "") samples jt
  = (samples ++
      (let '(j, temp) := jt in
       if truth temp && cell_selected matrix i j
       then [matrix_record i time_pt j temp] else []))%list.
Proof.
  destruct jt as [j temp]. unfold matrix_cell_body.
  rewrite guarded_cell, guarded_index.
  destruct (truth temp); simpl; [|now rewrite app_nil_r].
  destruct (cell_selected matrix i j); [|now rewrite app_nil_r].
  unfold spec_matrix_record, spec_matrix_label, is_DP.
  destruct (study_type =? "DP"); [|reflexivity].
  now rewrite string_app_nil_r.
Qed.

Lemma time_point_body_spec samples (it : nat * T) :
  time_point_body exp_id molecule source parent create_date conc formulation
    formulation_parent formulation_conc time_units temperatures
    vial_orientations matrix study_type samples it
  = (samples ++
      (let '(i, time_pt) := it in
       if truth time_pt then
         flat_map (fun '(j, temp) =>
           if truth temp && cell_selected matrix i j
           then [matrix_record i time_pt j temp] else [])
           (enumerate temperatures)
       else []))%list.
Proof.
  destruct it as [i time_pt]. unfold time_point_body.
  destruct (truth time_pt); simpl; [|now rewrite app_nil_r].
  rewrite guarded_index.
  apply fold_left_appending with
    (g := fun jt : nat * string =>
            let '(j, temp) := jt in
            if truth temp && cell_selected matrix i j
            then [matrix_record i time_pt j temp] else []).
  intros acc jt. apply matrix_cell_body_spec.
Qed.

Lemma extra_temp_body_spec samples (jt : nat * string) :
  extra_temp_body exp_id molecule source parent create_date conc formulation
    formulation_parent formulation_conc vial_orientations extra_vials
    study_type samples jt
  = (samples ++ extra_block jt)%list.
Proof.
  destruct jt as [j temp]. unfold extra_temp_body, spec_extra_block.
  destruct (truth temp); simpl; [|now rewrite app_nil_r].
  rewrite !guarded_index. unfold py_int.
  rewrite fold_left_appending with
    (g := fun k : Z => [extra_record j temp (k + 1)%Z]).
  - f_equal. rewrite <- py_range_shift, map_map.
    generalize (py_range (aligned extra_vials j 0%Z)).
    intros l; induction l as [|k l IH]; simpl; [reflexivity|now rewrite IH].
  - intros acc k. reflexivity.
Qed.

Lemma generate_unfold :
  generate = (t0 :: matrix_records ++ extra_records)%list.
Proof.
  unfold generate_stability_samples.
  rewrite (fold_left_appending _ _ extra_temp_body_spec).
  rewrite (fold_left_appending _ _ time_point_body_spec).
  rewrite t0_record_spec. simpl. reflexivity.
Qed.

End Unfold.

(** ** Evaluating the model *)

Example strip_both_ends : strip "  mAb1 SrcA, t0 " = "mAb1 SrcA, t0".
Proof. reflexivity. Qed.

Example strip_keeps_inner_blanks : strip "a  b" = "a  b".
Proof. reflexivity. Qed.

Example str_negative_int : str (-12)%Z = "-12".
Proof. reflexivity. Qed.

Example unit_suffix_month : unit_suffix "month" = "m".
Proof. reflexivity. Qed.

Example unit_suffix_other : unit_suffix "day" = "".
Proof. reflexivity. Qed.

Example py_range_negative : py_range (-3) = [].
Proof. reflexivity. Qed.

Example t0_label_trimmed :
  map Label
    (generate_stability_samples (N:=Z) (T:=Z) "EXP1" "mAb1" "SrcA" "P1"
       "2024-01-01" 100%Z "F1" "" None [] [] [] [] [] [] "DP")
  = ["mAb1 SrcA, F1, 100 mg/mL, t0"].
Proof. vm_compute. reflexivity. Qed.

Example ds_run_labels :
  map Micro_Label
    (generate_stability_samples (N:=Z) (T:=Z) "EXP1" "mAb1" "SrcA" "P1"
       "2024-01-01" 100%Z "F1" "P2" (Some 50%Z) [0%Z; 2%Z] ["week"; "week"]
       ["-70°C"; "25°C"] [] [[true; true]; [true; false; true]] [0%Z; 2%Z]
       "DS")
  = ["t0, DS"; "-70°C, 2w DS"; "25°C, extra1"; "25°C, extra2"].
Proof. vm_compute. reflexivity. Qed.

Example count_ignores_cells_out_of_range :
  count_selected_cells [1%Z; 0%Z] ["2-8°C"; ""]
    [[true; true; true]; [true; true]; [true]] = 1%nat.
Proof. reflexivity. Qed.

Example transportation_two_surfactants :
  option_map (map Formulation)
    (tab4_generate (N:=Z) (T:=Z) "EXP1" "mAb1" "SrcA" "P1" "2024-01-01" 100%Z
       [mkFormData "F1" "" None] ["PS20"; "PS80"] [])
  = Some ["F1"; "F1"; "F1"; "F1"; "F1PS20"; "F1PS20"; "F1PS20"; "F1PS20";
          "F1PS80"; "F1PS80"; "F1PS80"; "F1PS80"].
Proof. vm_compute. reflexivity. Qed.

(** ** Emission order *)

Section Groups.

Context {N T : Type} {ON : PyObject N} {OT : PyObject T}.

Variables (exp_id molecule source parent create_date : string) (conc : N).
Variables (formulation formulation_parent : string) (formulation_conc : option N).
Variables (time_points : list T) (time_units : list string).
Variables (temperatures vial_orientations : list string).
Variables (matrix : list (list bool)) (extra_vials : list Z).
Variable (study_type : string).

Lemma matrix_records_Forall (P : SampleRecord N T -> Prop) :
  (forall i time_pt j temp,
      nth_error time_points i = Some time_pt -> truth time_pt = true ->
      nth_error temperatures j = Some temp -> truth temp = true ->
      cell_selected matrix i j = true ->
      P (spec_matrix_record exp_id molecule source parent create_date conc
           formulation formulation_parent formulation_conc time_units
           vial_orientations study_type i time_pt j temp)) ->
  Forall P
    (spec_matrix_records exp_id molecule source parent create_date conc
       formulation formulation_parent formulation_conc time_points time_units
       temperatures vial_orientations matrix study_type).
Proof.
  intros HP. unfold spec_matrix_records.
  apply Forall_flat_map, Forall_forall. intros [i time_pt] Hi.
  apply enumerate_nth in Hi.
  destruct (truth time_pt) eqn:Ht; [|constructor].
  apply Forall_flat_map, Forall_forall. intros [j temp] Hj.
  apply enumerate_nth in Hj.
  destruct (truth temp) eqn:Hp; simpl; [|constructor].
  destruct (cell_selected matrix i j) eqn:Hc; [|constructor].
  constructor; [|constructor]. now apply HP.
Qed.

Lemma extra_records_Forall (P : SampleRecord N T -> Prop) :
  (forall j temp k,
      nth_error temperatures j = Some temp -> truth temp = true ->
      (1 <= k <= aligned extra_vials j 0)%Z ->
      P (spec_extra_record exp_id molecule source parent create_date conc
           formulation formulation_parent formulation_conc vial_orientations
           study_type j temp k)) ->
  Forall P
    (spec_extra_records exp_id molecule source parent create_date conc
       formulation formulation_parent formulation_conc temperatures
       vial_orientations extra_vials study_type).
Proof.
  intros HP. unfold spec_extra_records.
  apply Forall_flat_map, Forall_forall. intros [j temp] Hj.
  apply enumerate_nth in Hj. unfold spec_extra_block.
  destruct (truth temp) eqn:Hp; [|constructor].
  apply Forall_map, Forall_forall. intros k Hk.
  apply HP; auto. unfold one_to in Hk.
  apply in_map_iff in Hk. destruct Hk as [n [<- Hn]].
  apply in_seq in Hn. lia.
Qed.

End Groups.

(** C7: the generator emits exactly one T0 record first, then the
    matrix-expansion records, time points in list order and within each time
    point temperatures in list order, then the extra-vial records,
    temperatures in list order with the extra indices 1..count ascending.
    The three groups are told apart by their "Time Point" entry, so no second
    T0 record follows the first. *)
Theorem C7_emission_order {N T : Type} {ON : PyObject N} {OT : PyObject T}
    (exp_id molecule source parent create_date : string) (conc : N)
    (formulation formulation_parent : string) (formulation_conc : option N)
    (time_points : list T) (time_units temperatures vial_orientations : list string)
    (matrix : list (list bool)) (extra_vials : list Z) (study_type : string) :
  let t0 := spec_t0_record exp_id molecule source parent create_date conc
              formulation formulation_parent formulation_conc time_units
              study_type in
  let matrix_part := spec_matrix_records exp_id molecule source parent
              create_date conc formulation formulation_parent formulation_conc
              time_points time_units temperatures vial_orientations matrix
              study_type in
  let extra_part := spec_extra_records exp_id molecule source parent
              create_date conc formulation formulation_parent formulation_conc
              temperatures vial_orientations extra_vials study_type in
  generate_stability_samples exp_id molecule source parent create_date conc
    formulation formulation_parent formulation_conc time_points time_units
    temperatures vial_orientations matrix extra_vials study_type
  = ([t0] ++ matrix_part ++ extra_part)%list
  /\ is_t0_record t0 = true
  /\ Forall (fun r => is_matrix_record r = true) matrix_part
  /\ Forall (fun r => is_extra_record r = true) extra_part.
Proof.
  intros t0 matrix_part extra_part. split; [apply generate_unfold|].
  split; [reflexivity|]. split.
  - apply matrix_records_Forall. reflexivity.
  - apply extra_records_Forall. reflexivity.
Qed.

(** ** The worked example *)

(** C6: with context EXP1 / mAb1 / SrcA / P1 / 2024-01-01 / 100, one DP
    formulation F1 without overrides, temperature 2-8°C with orientation
    upright and no extra vials, time point 1 month and matrix [[true]], the
    generator returns exactly two records: the T0 record with micro-label
    "t0", then one record with micro-label "2-8°C, 1m", vial orientation
    "upright" and storage temperature "2-8°C". *)
Theorem C6_worked_example :
  exists r0 r1 : SampleRecord Z Z,
    generate_stability_samples "EXP1" "mAb1" "SrcA" "P1" "2024-01-01" 100%Z
      "F1" "" None [1%Z] ["month"] ["2-8°C"] ["upright"] [[true]] [0%Z] "DP"
    = [r0; r1]
    /\ is_t0_record r0 = true
    /\ Micro_Label r0 = "t0"
    /\ Micro_Label r1 = "2-8°C, 1m"
    /\ Storage_Vial_Orientation_Conditions r1 = "upright"
    /\ Storage_Temp r1 = "2-8°C"
    /\ DS_Temperature r1 = ""
    /\ Time_Point r1 = CVal 1%Z
    /\ Time_Point_Units r1 = "month"
    /\ Label r1 = "mAb1 SrcA, F1, 100 mg/mL, 2-8°C, 1m upright".
Proof.
  eexists; eexists. split; [vm_compute; reflexivity|].
  repeat split.
Qed.

(** ** Field mapping per study type *)

Lemma populated_truth (s : string) : populated s = truth s.
Proof. reflexivity. Qed.

(** C1, as stated, fails: the T0 record of the worked example has neither
    temperature entry populated. *)
Lemma C1_counterexample :
  ~ Forall (fun r : SampleRecord Z Z => exactly_one_temperature r = true)
      (generate_stability_samples "EXP1" "mAb1" "SrcA" "P1" "2024-01-01" 100%Z
         "F1" "" None [1%Z] ["month"] ["2-8°C"] ["upright"] [[true]] [0%Z]
         "DP").
Proof.
  intros H. apply Forall_inv in H. vm_compute in H. discriminate H.
Qed.

(** C1 (amended): for a study type DP or DS, the T0 record has neither
    temperature entry populated, and every other emitted record has exactly
    one of them populated: the storage temperature for DP, the DS temperature
    for DS. *)
Theorem C1_one_temperature_field {N T : Type} {ON : PyObject N} {OT : PyObject T}
    (exp_id molecule source parent create_date : string) (conc : N)
    (formulation formulation_parent : string) (formulation_conc : option N)
    (time_points : list T) (time_units temperatures vial_orientations : list string)
    (matrix : list (list bool)) (extra_vials : list Z) (study_type : string) :
  study_type = "DP" \/ study_type = "DS" ->
  Forall (fun r =>
      if is_t0_record r
      then populated (Storage_Temp r) = false
           /\ populated (DS_Temperature r) = false
      else exactly_one_temperature r = true
           /\ populated (Storage_Temp r) = (study_type =? "DP")
           /\ populated (DS_Temperature r) = (study_type =? "DS"))
    (generate_stability_samples exp_id molecule source parent create_date conc
       formulation formulation_parent formulation_conc time_points time_units
       temperatures vial_orientations matrix extra_vials study_type).
Proof.
  intros Hst. rewrite generate_unfold.
  assert (Hfields : forall temp : string, truth temp = true ->
            xorb (populated (if study_type =? "DP" then temp else ""))
                 (populated (if study_type =? "DS" then temp else "")) = true
            /\ populated (if study_type =? "DP" then temp else "")
               = (study_type =? "DP")
            /\ populated (if study_type =? "DS" then temp else "")
               = (study_type =? "DS")).
  { intros temp Ht. rewrite <- populated_truth in Ht.
    destruct Hst as [-> | ->]; simpl; rewrite Ht; auto. }
  constructor; [simpl; auto|].
  apply Forall_app. split.
  - apply matrix_records_Forall. intros i time_pt j temp _ _ _ Ht _.
    simpl. unfold exactly_one_temperature, is_DP. simpl. now apply Hfields.
  - apply extra_records_Forall. intros j temp k _ Ht _.
    simpl. unfold exactly_one_temperature, is_DP. simpl. now apply Hfields.
Qed.

Lemma C1_one_temperature_field_witness :
  Forall (fun r : SampleRecord Z Z =>
      if is_t0_record r
      then populated (Storage_Temp r) = false
           /\ populated (DS_Temperature r) = false
      else exactly_one_temperature r = true
           /\ populated (Storage_Temp r) = ("DS" =? "DP")
           /\ populated (DS_Temperature r) = ("DS" =? "DS"))
    (generate_stability_samples "EXP1" "mAb1" "SrcA" "P1" "2024-01-01" 100%Z
       "F1" "" None [1%Z] ["month"] ["2-8°C"] [] [[true]] [2%Z] "DS").
Proof.
  apply (C1_one_temperature_field (N:=Z) (T:=Z)). right. reflexivity.
Defined.

(** C2, as stated, fails: with study type DS and a non-empty orientation
    list, the generator copies the orientation into the records. *)
Lemma C2_counterexample :
  ~ Forall (fun r : SampleRecord Z Z =>
              Storage_Vial_Orientation_Conditions r = "")
      (generate_stability_samples "EXP1" "mAb1" "SrcA" "P1" "2024-01-01" 100%Z
         "F1" "" None [1%Z] ["month"] ["2-8°C"] ["upright"] [[true]] [0%Z]
         "DS").
Proof.
  intros H. apply Forall_inv_tail, Forall_inv in H. vm_compute in H.
  discriminate H.
Qed.

Lemma aligned_nil {A : Type} (i : nat) (d : A) : aligned [] i d = d.
Proof. unfold aligned. now destruct i. Qed.

Lemma aligned_In {A : Type} (l : list A) (i : nat) (d : A) :
  aligned l i d = d \/ In (aligned l i d) l.
Proof.
  unfold aligned. destruct (nth_error l i) eqn:E; [|now left].
  right. eapply nth_error_In; eauto.
Qed.

(** C2 (amended): for study type DS the generator fills the vial orientation
    exactly as for DP, from the orientation list by temperature index: the
    orientation column of a DS call equals that of the DP call on the same
    lists.  Every record has an empty vial orientation when the orientation
    list passed is empty (as the DS form passes it), and in general a
    record's orientation is empty or an entry of the list passed. *)
Theorem C2_ds_vial_orientation {N T : Type} {ON : PyObject N} {OT : PyObject T}
    (exp_id molecule source parent create_date : string) (conc : N)
    (formulation formulation_parent : string) (formulation_conc : option N)
    (time_points : list T) (time_units temperatures vial_orientations : list string)
    (matrix : list (list bool)) (extra_vials : list Z) :
  Forall (fun r => Storage_Vial_Orientation_Conditions r = "")
    (generate_stability_samples exp_id molecule source parent create_date conc
       formulation formulation_parent formulation_conc time_points time_units
       temperatures [] matrix extra_vials "DS")
  /\ map Storage_Vial_Orientation_Conditions
       (generate_stability_samples exp_id molecule source parent create_date
          conc formulation formulation_parent formulation_conc time_points
          time_units temperatures vial_orientations matrix extra_vials "DS")
     = map Storage_Vial_Orientation_Conditions
         (generate_stability_samples exp_id molecule source parent create_date
            conc formulation formulation_parent formulation_conc time_points
            time_units temperatures vial_orientations matrix extra_vials "DP")
  /\ Forall (fun r => Storage_Vial_Orientation_Conditions r = ""
                      \/ In (Storage_Vial_Orientation_Conditions r)
                            vial_orientations)
    (generate_stability_samples exp_id molecule source parent create_date conc
       formulation formulation_parent formulation_conc time_points time_units
       temperatures vial_orientations matrix extra_vials "DS").
Proof.
  split; [|split]; rewrite ?generate_unfold.
  - constructor; [reflexivity|]. apply Forall_app. split.
    + apply matrix_records_Forall. intros. simpl. apply aligned_nil.
    + apply extra_records_Forall. intros. simpl. apply aligned_nil.
  - cbn [map]. apply f_equal2; [reflexivity|]. rewrite !map_app.
    apply f_equal2.
    + unfold spec_matrix_records. rewrite !map_flat_map.
      apply flat_map_ext. intros [i time_pt].
      destruct (truth time_pt); [|reflexivity].
      rewrite !map_flat_map. apply flat_map_ext. intros [j temp].
      destruct (truth temp && cell_selected matrix i j); reflexivity.
    + unfold spec_extra_records. rewrite !map_flat_map.
      apply flat_map_ext. intros [j temp]. unfold spec_extra_block.
      destruct (truth temp); [|reflexivity].
      rewrite !map_map. reflexivity.
  - constructor; [now left|]. apply Forall_app. split.
    + apply matrix_records_Forall. intros. simpl. apply aligned_In.
    + apply extra_records_Forall. intros. simpl. apply aligned_In.
Qed.

(** ** Concentration resolution *)

(** C3, as stated, fails: an override of -5 is not replaced by the default
    100; the records carry -5. *)
Lemma C3_counterexample :
  ~ Forall (fun r : SampleRecord Z Z => Conc r = 100%Z)
      (generate_stability_samples "EXP1" "mAb1" "SrcA" "P1" "2024-01-01" 100%Z
         "F1" "" (Some (-5)%Z) [1%Z] ["month"] ["2-8°C"] ["upright"] [[true]]
         [0%Z] "DP").
Proof.
  intros H. apply Forall_inv in H. vm_compute in H. discriminate H.
Qed.

Lemma conc_everywhere {N T : Type} {ON : PyObject N} {OT : PyObject T}
    (exp_id molecule source parent create_date : string) (conc : N)
    (formulation formulation_parent : string) (formulation_conc : option N)
    (time_points : list T) (time_units temperatures vial_orientations : list string)
    (matrix : list (list bool)) (extra_vials : list Z) (study_type : string) :
  Forall (fun r => Conc r = resolve_conc formulation_conc conc)
    (generate_stability_samples exp_id molecule source parent create_date conc
       formulation formulation_parent formulation_conc time_points time_units
       temperatures vial_orientations matrix extra_vials study_type).
Proof.
  rewrite generate_unfold. constructor; [reflexivity|].
  apply Forall_app. split.
  - apply matrix_records_Forall. reflexivity.
  - apply extra_records_Forall. reflexivity.
Qed.

(** C3 (amended): with integer concentrations, the concentration written
    into all emitted records is one value, resolved once: the formulation's
    override when it is present and not zero, otherwise the context default.
    An override greater than zero is used; an absent or zero override falls
    back to the default. *)
Theorem C3_concentration_resolution {T : Type} {OT : PyObject T}
    (exp_id molecule source parent create_date : string) (conc : Z)
    (formulation formulation_parent : string) (formulation_conc : option Z)
    (time_points : list T) (time_units temperatures vial_orientations : list string)
    (matrix : list (list bool)) (extra_vials : list Z) (study_type : string) :
  Forall (fun r =>
      Conc r = match formulation_conc with
               | Some c => if (c =? 0)%Z then conc else c
               | None => conc
               end)
    (generate_stability_samples exp_id molecule source parent create_date conc
       formulation formulation_parent formulation_conc time_points time_units
       temperatures vial_orientations matrix extra_vials study_type).
Proof.
  eapply Forall_impl; [|apply conc_everywhere].
  intros r ->. destruct formulation_conc as [c|]; [|reflexivity].
  unfold resolve_conc, truth; simpl. now destruct (c =? 0)%Z.
Qed.

(** Through the form, which passes [None] for a value that is not greater
    than zero, the records carry the form's value when it is positive and
    the default otherwise. *)
Corollary concentration_through_form {T : Type} {OT : PyObject T}
    (exp_id molecule source parent create_date : string) (conc : Z)
    (formulation formulation_parent : string) (form_conc : Z)
    (time_points : list T) (time_units temperatures vial_orientations : list string)
    (matrix : list (list bool)) (extra_vials : list Z) (study_type : string) :
  Forall (fun r => Conc r = if (0 <? form_conc)%Z then form_conc else conc)
    (generate_stability_samples exp_id molecule source parent create_date conc
       formulation formulation_parent (collect_concentration form_conc)
       time_points time_units temperatures vial_orientations matrix
       extra_vials study_type).
Proof.
  eapply Forall_impl; [|apply conc_everywhere].
  intros r ->. unfold collect_concentration, resolve_conc, truth; simpl.
  rewrite Z.gtb_ltb.
  destruct (Z.ltb_spec 0 form_conc) as [Hp|Hn]; [|reflexivity].
  destruct (Z.eqb_spec form_conc 0); [lia|reflexivity].
Qed.

(** ** Counting matrix-expansion records *)

Lemma enumerate_from_map_seq {A B : Type} (f : nat * A -> B) (d : B) (l : list A) :
  forall start,
    map f (enumerate_from start l)
    = map (fun i => match nth_error l (i - start) with
                    | Some x => f (i, x)
                    | None => d
                    end)
          (seq start (List.length l)).
Proof.
  induction l as [|x l IH]; intros start; simpl; [reflexivity|].
  rewrite Nat.sub_diag. simpl. f_equal.
  rewrite IH. apply map_ext_in. intros i Hi. apply in_seq in Hi.
  replace (i - start)%nat with (S (i - S start)) by lia. reflexivity.
Qed.

Lemma enumerate_map_seq {A B : Type} (f : nat * A -> B) (d : B) (l : list A) :
  map f (enumerate l)
  = map (fun i => match nth_error l i with Some x => f (i, x) | None => d end)
        (seq 0 (List.length l)).
Proof.
  unfold enumerate. rewrite (enumerate_from_map_seq f d).
  apply map_ext. intros i. now rewrite Nat.sub_0_r.
Qed.

Lemma length_filter_list_prod {A B : Type} (p : A * B -> bool)
    (l1 : list A) (l2 : list B) :
  List.length (filter p (list_prod l1 l2))
  = list_sum (map (fun x =>
                list_sum (map (fun y => if p (x, y) then 1 else 0)%nat l2)) l1).
Proof.
  induction l1 as [|x l1 IH]; simpl; [reflexivity|].
  rewrite filter_app, length_app, IH. f_equal.
  clear IH. induction l2 as [|y l2 IH]; simpl; [reflexivity|].
  destruct (p (x, y)); simpl; now rewrite IH.
Qed.

Lemma filter_all {A : Type} (p : A -> bool) (l : list A) :
  Forall (fun x => p x = true) l -> filter p l = l.
Proof.
  induction 1 as [|x l Hx _ IH]; simpl; [reflexivity|].
  now rewrite Hx, IH.
Qed.

Lemma filter_none {A : Type} (p : A -> bool) (l : list A) :
  Forall (fun x => p x = false) l -> filter p l = [].
Proof.
  induction 1 as [|x l Hx _ IH]; simpl; [reflexivity|].
  now rewrite Hx, IH.
Qed.

Section Counting.

Context {N T : Type} {ON : PyObject N} {OT : PyObject T}.

Variables (exp_id molecule source parent create_date : string) (conc : N).
Variables (formulation formulation_parent : string) (formulation_conc : option N).
Variables (time_points : list T) (time_units : list string).
Variables (temperatures vial_orientations : list string).
Variables (matrix : list (list bool)) (extra_vials : list Z).
Variable (study_type : string).

Lemma filter_matrix_records :
  filter is_matrix_record
    (generate_stability_samples exp_id molecule source parent create_date conc
       formulation formulation_parent formulation_conc time_points time_units
       temperatures vial_orientations matrix extra_vials study_type)
  = spec_matrix_records exp_id molecule source parent create_date conc
      formulation formulation_parent formulation_conc time_points time_units
      temperatures vial_orientations matrix study_type.
Proof.
  rewrite generate_unfold. simpl. rewrite filter_app.
  rewrite filter_all, filter_none.
  - apply app_nil_r.
  - apply extra_records_Forall. reflexivity.
  - apply matrix_records_Forall. reflexivity.
Qed.

Lemma filter_extra_records :
  filter is_extra_record
    (generate_stability_samples exp_id molecule source parent create_date conc
       formulation formulation_parent formulation_conc time_points time_units
       temperatures vial_orientations matrix extra_vials study_type)
  = spec_extra_records exp_id molecule source parent create_date conc
      formulation formulation_parent formulation_conc temperatures
      vial_orientations extra_vials study_type.
Proof.
  rewrite generate_unfold. simpl. rewrite filter_app.
  rewrite filter_none, filter_all.
  - reflexivity.
  - apply extra_records_Forall. reflexivity.
  - apply matrix_records_Forall. reflexivity.
Qed.

Lemma length_matrix_records :
  List.length
    (spec_matrix_records exp_id molecule source parent create_date conc
       formulation formulation_parent formulation_conc time_points time_units
       temperatures vial_orientations matrix study_type)
  = count_selected_cells time_points temperatures matrix.
Proof.
  unfold spec_matrix_records, count_selected_cells.
  rewrite length_filter_list_prod, length_flat_map.
  rewrite (enumerate_map_seq _ 0%nat).
  apply f_equal, map_ext_in. intros i Hi. apply in_seq in Hi.
  destruct (nth_error time_points i) as [time_pt|] eqn:Ei.
  2:{ apply nth_error_None in Ei. lia. }
  destruct (truth time_pt) eqn:Ht.
  - rewrite length_flat_map, (enumerate_map_seq _ 0%nat).
    apply f_equal, map_ext_in. intros j Hj. apply in_seq in Hj.
    unfold cell_counts. rewrite Ei, Ht.
    destruct (nth_error temperatures j) as [temp|] eqn:Ej.
    2:{ apply nth_error_None in Ej. lia. }
    destruct (truth temp), (cell_selected matrix i j); reflexivity.
  - simpl. symmetry.
    induction (seq 0 (List.length temperatures)) as [|j l IH];
      simpl; [reflexivity|].
    rewrite IH. unfold cell_counts. rewrite Ei, Ht.
    now rewrite andb_false_r.
Qed.

End Counting.

(** C5: the number of matrix-expansion records emitted (the records other
    than the T0 record and the extra-vial records) equals the number of cells
    [selectionMatrix[i][j]] that are true with [i] within the time-point list
    and [j] within the temperature list, not counting the cells whose time
    point is zero or empty or whose temperature label is empty. *)
Theorem C5_matrix_record_count {N T : Type} {ON : PyObject N} {OT : PyObject T}
    (exp_id molecule source parent create_date : string) (conc : N)
    (formulation formulation_parent : string) (formulation_conc : option N)
    (time_points : list T) (time_units temperatures vial_orientations : list string)
    (matrix : list (list bool)) (extra_vials : list Z) (study_type : string) :
  let out :=
    generate_stability_samples exp_id molecule source parent create_date conc
      formulation formulation_parent formulation_conc time_points time_units
      temperatures vial_orientations matrix extra_vials study_type in
  List.length (filter is_matrix_record out)
    = count_selected_cells time_points temperatures matrix
  /\ List.length out
     = (1 + count_selected_cells time_points temperatures matrix
        + List.length (filter is_extra_record out))%nat.
Proof.
  intros out. subst out. split.
  - rewrite filter_matrix_records. apply length_matrix_records.
  - rewrite filter_extra_records, generate_unfold. simpl.
    rewrite length_app, length_matrix_records. reflexivity.
Qed.

(** ** Extra vials *)

(** C8, as stated, fails: a temperature with an empty label and an extra-vial
    count of 2 gets no extra-vial record. *)
Lemma C8_counterexample :
  List.length
    (filter is_extra_record
       (generate_stability_samples (N:=Z) (T:=Z) "EXP1" "mAb1" "SrcA" "P1"
          "2024-01-01" 100%Z "F1" "" None [1%Z] ["month"] [""] [""]
          [[true]] [2%Z] "DP"))
  <> Z.to_nat (Z.max 0 2).
Proof. vm_compute. discriminate. Qed.

Lemma length_one_to (n : Z) : List.length (one_to n) = Z.to_nat (Z.max 0 n).
Proof.
  unfold one_to. rewrite length_map, length_seq. lia.
Qed.

(** C8 (amended): for every temperature condition with a non-empty label the
    extra-vial loop appends max(0, extraVialCount) records, the count being
    the entry of the extra-vial list at the temperature's index, or 0 when
    the list has none; a temperature with an empty label gets none.  The sum
    of these numbers over the temperature list is the number of extra-vial
    records of the call. *)
Theorem C8_extra_vial_count {N T : Type} {ON : PyObject N} {OT : PyObject T}
    (exp_id molecule source parent create_date : string) (conc : N)
    (formulation formulation_parent : string) (formulation_conc : option N)
    (time_points : list T) (time_units temperatures vial_orientations : list string)
    (matrix : list (list bool)) (extra_vials : list Z) (study_type : string) :
  let extras_at (jt : nat * string) : nat :=
    if truth (snd jt)
    then Z.to_nat (Z.max 0 (aligned extra_vials (fst jt) 0%Z))
    else 0%nat in
  (forall (samples : list (SampleRecord N T)) (j : nat) (temp : string),
      List.length
        (extra_temp_body exp_id molecule source parent create_date conc
           formulation formulation_parent formulation_conc vial_orientations
           extra_vials study_type samples (j, temp))
      = (List.length samples + extras_at (j, temp))%nat)
  /\ List.length
       (filter is_extra_record
          (generate_stability_samples exp_id molecule source parent
             create_date conc formulation formulation_parent formulation_conc
             time_points time_units temperatures vial_orientations matrix
             extra_vials study_type))
     = list_sum (map extras_at (enumerate temperatures)).
Proof.
  intros extras_at.
  assert (Hblock : forall jt,
             List.length
               (spec_extra_block (N:=N) (T:=T) exp_id molecule source parent
                  create_date conc formulation formulation_parent
                  formulation_conc vial_orientations extra_vials study_type jt)
             = extras_at jt).
  { intros [j temp]. unfold spec_extra_block, extras_at. simpl.
    destruct (truth temp); [|reflexivity].
    now rewrite length_map, length_one_to. }
  split.
  - intros samples j temp.
    now rewrite extra_temp_body_spec, length_app, Hblock.
  - rewrite filter_extra_records. unfold spec_extra_records.
    rewrite length_flat_map. apply f_equal, map_ext. exact Hblock.
Qed.

(** ** Time points without a unit *)

Lemma matrix_record_In {N T : Type} {ON : PyObject N} {OT : PyObject T}
    (exp_id molecule source parent create_date : string) (conc : N)
    (formulation formulation_parent : string) (formulation_conc : option N)
    (time_points : list T) (time_units temperatures vial_orientations : list string)
    (matrix : list (list bool)) (extra_vials : list Z) (study_type : string)
    (i j : nat) (time_pt : T) (temp : string) :
  nth_error time_points i = Some time_pt -> truth time_pt = true ->
  nth_error temperatures j = Some temp -> truth temp = true ->
  cell_selected matrix i j = true ->
  In (spec_matrix_record exp_id molecule source parent create_date conc
        formulation formulation_parent formulation_conc time_units
        vial_orientations study_type i time_pt j temp)
     (generate_stability_samples exp_id molecule source parent create_date
        conc formulation formulation_parent formulation_conc time_points
        time_units temperatures vial_orientations matrix extra_vials
        study_type).
Proof.
  intros Hi Ht Hj Hp Hc. rewrite generate_unfold.
  right. apply in_or_app. left. unfold spec_matrix_records.
  apply in_flat_map. exists (i, time_pt). split; [now apply enumerate_nth|].
  rewrite Ht. apply in_flat_map. exists (j, temp).
  split; [now apply enumerate_nth|].
  rewrite Hp, Hc. now left.
Qed.

(** C10: when the time-unit list is shorter than the time-point list, a
    selected cell whose time point lies beyond the end of the time-unit list
    still yields its record: the record has an empty time unit and a
    micro-label without unit suffix, "{temperature}, {timeValue}" for DP
    (followed by " DS" otherwise). *)
Theorem C10_missing_time_unit {N T : Type} {ON : PyObject N} {OT : PyObject T}
    (exp_id molecule source parent create_date : string) (conc : N)
    (formulation formulation_parent : string) (formulation_conc : option N)
    (time_points : list T) (time_units temperatures vial_orientations : list string)
    (matrix : list (list bool)) (extra_vials : list Z) (study_type : string)
    (i j : nat) (time_pt : T) (temp : string) :
  (List.length time_units <= i)%nat ->
  nth_error time_points i = Some time_pt -> truth time_pt = true ->
  nth_error temperatures j = Some temp -> truth temp = true ->
  cell_selected matrix i j = true ->
  exists r,
    In r (generate_stability_samples exp_id molecule source parent create_date
            conc formulation formulation_parent formulation_conc time_points
            time_units temperatures vial_orientations matrix extra_vials
            study_type)
    /\ Time_Point r = CVal time_pt
    /\ Time_Point_Units r = ""
    /\ Micro_Label r
       = (if study_type =? "DP"
          then temp ++ ", " ++ str time_pt
          else temp ++ ", " ++ str time_pt ++ " DS")
    /\ Storage_Temp r = (if study_type =? "DP" then temp else "")
    /\ DS_Temperature r = (if study_type =? "DS" then temp else "").
Proof.
  intros Hlen Hi Ht Hj Hp Hc.
  eexists. split; [eapply matrix_record_In; eauto|].
  assert (Hu : aligned time_units i "" = "").
  { unfold aligned. apply nth_error_None in Hlen. now rewrite Hlen. }
  simpl. rewrite Hu. unfold spec_matrix_label, is_DP. simpl.
  repeat split. destruct (study_type =? "DP"); [|reflexivity].
  now rewrite string_app_nil_r.
Qed.

Lemma C10_missing_time_unit_witness :
  exists r : SampleRecord Z Z,
    In r (generate_stability_samples "EXP1" "mAb1" "SrcA" "P1" "2024-01-01"
            100%Z "F1" "" None [1%Z; 3%Z] ["month"] ["2-8°C"] ["upright"]
            [[true]; [true]] [0%Z] "DP")
    /\ Time_Point r = CVal 3%Z
    /\ Time_Point_Units r = ""
    /\ Micro_Label r = "2-8°C, 3"
    /\ Storage_Temp r = "2-8°C"
    /\ DS_Temperature r = "".
Proof.
  exact (C10_missing_time_unit (N:=Z) (T:=Z) "EXP1" "mAb1" "SrcA" "P1"
           "2024-01-01" 100%Z "F1" "" None [1%Z; 3%Z] ["month"] ["2-8°C"]
           ["upright"] [[true]; [true]] [0%Z] "DP" 1 0 3%Z "2-8°C"
           (le_n 1) eq_refl eq_refl eq_refl eq_refl eq_refl).
Defined.

(** ** Transportation *)

Section TransportProofs.

Context {N T : Type} {ON : PyObject N} {OT : PyObject T}.

Variables (exp_id molecule source parent create_date : string) (concentration : N).

Lemma transport_loop (formulation prnt : string) (cnc : N)
    (samples : list (SampleRecord N T)) :
  fold_left
    (transport_label_body exp_id molecule source create_date formulation prnt cnc)
    VOCAB_transportation (Some samples)
  = Some (samples ++
          spec_transport_block exp_id molecule source create_date formulation
            prnt cnc)%list.
Proof.
  unfold VOCAB_transportation, spec_transport_block, spec_transport_record.
  cbn [fold_left transport_label_body]. cbn.
  rewrite <- !app_assoc. reflexivity.
Qed.

Lemma surfactant_loop (form_data : FormData N) (prnt : string) (cnc : N)
    (surfactants : list string) :
  forall samples : list (SampleRecord N T),
    fold_left
      (surfactant_body exp_id molecule source create_date form_data prnt cnc)
      surfactants (Some samples)
    = Some (samples ++
            flat_map (fun name =>
                spec_transport_block exp_id molecule source create_date name
                  prnt cnc)
              (map (fun surf => (fd_formulation form_data ++ surf)%string)
                 surfactants))%list.
Proof.
  induction surfactants as [|surf surfactants IH]; intros samples.
  - simpl. now rewrite app_nil_r.
  - cbn [fold_left map flat_map]. unfold surfactant_body at 2.
    rewrite transport_loop, IH, <- app_assoc. reflexivity.
Qed.

Lemma tab4_form_body_spec (surfactants : list string) (form_data : FormData N)
    (samples : list (SampleRecord N T)) :
  tab4_form_body exp_id molecule source parent create_date concentration
    surfactants (Some samples) form_data
  = Some (samples ++
          spec_form_records exp_id molecule source parent create_date
            concentration surfactants form_data)%list.
Proof.
  unfold tab4_form_body, spec_form_records, spec_transport_names.
  rewrite transport_loop, surfactant_loop, <- app_assoc. reflexivity.
Qed.

Lemma length_form_records (surfactants : list string) (form_data : FormData N) :
  List.length
    (spec_form_records (T:=T) exp_id molecule source parent create_date
       concentration surfactants form_data)
  = (4 * (1 + List.length surfactants))%nat.
Proof.
  unfold spec_form_records, spec_transport_names.
  rewrite length_flat_map. cbn [map list_sum spec_transport_block List.length].
  rewrite map_map.
  induction surfactants as [|surf surfactants IH]; simpl in *; lia.
Qed.

End TransportProofs.

(** C9: in a transportation generation each base formulation contributes
    exactly 4 records when no surfactant is specified and exactly
    4 × (1 + s) records with s surfactants: the 4-entry block (Control,
    Transport Rep 1/2/3) for the base formulation name, then one such block
    per surfactant under the name made of the base name directly followed by
    the surfactant name.  The whole generation appends these per-formulation
    groups in list order. *)
Theorem C9_transportation_count {N T : Type} {ON : PyObject N} {OT : PyObject T}
    (exp_id molecule source parent create_date : string) (concentration : N)
    (surfactants : list string) (form_data : FormData N)
    (tr_formulations : list (FormData N))
    (samples : list (SampleRecord N T)) :
  let block name :=
    spec_transport_block (T:=T) exp_id molecule source create_date name
      (resolve_parent (fd_parent form_data) parent)
      (resolve_conc (fd_concentration form_data) concentration) in
  let base := fd_formulation form_data in
  tab4_form_body exp_id molecule source parent create_date concentration
    surfactants (Some samples) form_data
  = Some (samples ++ block base
          ++ flat_map (fun surf => block (base ++ surf)%string) surfactants)%list
  /\ tab4_form_body exp_id molecule source parent create_date concentration
       [] (Some samples) form_data
     = Some (samples ++ block base)%list
  /\ List.length (block base) = 4%nat
  /\ List.length
       (block base ++ flat_map (fun surf => block (base ++ surf)%string) surfactants)
     = (4 * (1 + List.length surfactants))%nat
  /\ (forall name,
        map Transportation (block name)
        = ["Control"; "Transport Rep 1"; "Transport Rep 2"; "Transport Rep 3"]
        /\ map Micro_Label (block name) = ["ctrl"; "trans1"; "trans2"; "trans3"]
        /\ map Formulation (block name) = [name; name; name; name])
  /\ tab4_generate exp_id molecule source parent create_date concentration
       tr_formulations surfactants samples
     = Some (samples ++
             flat_map (spec_form_records exp_id molecule source parent
                         create_date concentration surfactants)
               tr_formulations)%list.
Proof.
  intros block base.
  assert (Hflat : forall l,
             flat_map (fun surf => block (base ++ surf)%string) l
             = flat_map block (map (fun surf => (base ++ surf)%string) l)).
  { intros l. induction l as [|x l IH]; simpl; [reflexivity|now rewrite IH]. }
  split; [|split; [|split; [|split; [|split]]]].
  - rewrite tab4_form_body_spec. reflexivity || (rewrite Hflat; reflexivity).
  - rewrite tab4_form_body_spec. reflexivity.
  - reflexivity.
  - rewrite Hflat.
    exact (length_form_records exp_id molecule source parent create_date
             concentration surfactants form_data).
  - intros name. repeat split.
  - unfold tab4_generate. revert samples.
    induction tr_formulations as [|fd fds IH]; intros samples; simpl.
    + now rewrite app_nil_r.
    + rewrite tab4_form_body_spec, IH, <- app_assoc. reflexivity.
Qed.

(** ** Uniqueness of micro-labels *)

(** C4, as stated, fails: two temperature conditions with the same label and
    one extra vial each give two records with the micro-label
    "2-8°C, extra1". *)
Lemma C4_counterexample :
  ~ NoDup
      (map Micro_Label
         (generate_stability_samples (N:=Z) (T:=Z) "EXP1" "mAb1" "SrcA" "P1"
            "2024-01-01" 100%Z "F1" "" None [1%Z] ["month"]
            ["2-8°C"; "2-8°C"] ["upright"; "inverted"] [[false; false]]
            [1%Z; 1%Z] "DP")).
Proof.
  intros H. vm_compute in H.
  apply NoDup_cons_iff in H. destruct H as [_ H].
  apply NoDup_cons_iff in H. destruct H as [H _].
  apply H. left. reflexivity.
Qed.

(** *** Texts without a comma *)

Lemma all_chars_app (p : ascii -> bool) (s1 s2 : string) :
  all_chars p (s1 ++ s2) = all_chars p s1 && all_chars p s2.
Proof.
  induction s1 as [|c s1 IH]; simpl; [reflexivity|].
  now rewrite IH, andb_assoc.
Qed.

Lemma all_chars_impl (p q : ascii -> bool) (s : string) :
  (forall c, p c = true -> q c = true) ->
  all_chars p s = true -> all_chars q s = true.
Proof.
  intros Hpq. induction s as [|c s IH]; simpl; [reflexivity|].
  intros H. apply andb_true_iff in H. destruct H as [Hc Hs].
  now rewrite (Hpq c Hc), IH.
Qed.

Lemma plain_char_not_comma (c : ascii) : plain_char c = true -> not_comma c = true.
Proof.
  unfold not_comma. destruct (Ascii.eqb_spec c ","); [|reflexivity].
  subst c. intros H. vm_compute in H. discriminate H.
Qed.

Lemma plain_numeral_no_comma (s : string) :
  plain_numeral s = true -> no_comma s = true.
Proof.
  unfold plain_numeral, no_comma. intros H.
  apply andb_true_iff in H. destruct H as [_ H].
  revert H. apply all_chars_impl, plain_char_not_comma.
Qed.

Lemma plain_numeral_head (s : string) :
  plain_numeral s = true ->
  exists c r, s = String c r /\ plain_char c = true.
Proof.
  destruct s as [|c r]; [discriminate|]. unfold plain_numeral. simpl.
  intros H. apply andb_true_iff in H. destruct H as [H _].
  exists c, r. auto.
Qed.

Lemma unit_suffix_no_comma (u : string) : no_comma (unit_suffix u) = true.
Proof.
  unfold unit_suffix.
  destruct (u =? "week"); [reflexivity|].
  destruct (u =? "month"); [reflexivity|].
  destruct (u =? "year"); reflexivity.
Qed.

(** Two texts that end in a comma followed by comma-free text split at the
    same place. *)
Lemma split_at_last_comma (a b x y : string) :
  no_comma x = true -> no_comma y = true ->
  a ++ String "," x = b ++ String "," y -> a = b /\ x = y.
Proof.
  intros Hx Hy. revert b.
  induction a as [|c a IH]; intros [|d b] H; simpl in H.
  - inversion H. auto.
  - inversion H; subst. exfalso.
    unfold no_comma in Hx. rewrite all_chars_app in Hx. simpl in Hx.
    rewrite andb_false_r in Hx. discriminate.
  - inversion H; subst. exfalso.
    unfold no_comma in Hy. rewrite all_chars_app in Hy. simpl in Hy.
    rewrite andb_false_r in Hy. discriminate.
  - inversion H; subst. destruct (IH b) as [-> ->]; auto.
Qed.

Lemma string_app_inv_tail (t s1 s2 : string) : s1 ++ t = s2 ++ t -> s1 = s2.
Proof.
  revert s2. induction s1 as [|c s1 IH]; intros [|d s2] H; simpl in H.
  - reflexivity.
  - exfalso. apply (f_equal String.length) in H. simpl in H.
    rewrite string_length_app in H. lia.
  - exfalso. apply (f_equal String.length) in H. simpl in H.
    rewrite string_length_app in H. lia.
  - inversion H; subst. f_equal. now apply IH.
Qed.

(** *** The decimal rendering of integers *)

Lemma uint_digits (d : Decimal.uint) :
  all_chars is_digit (NilEmpty.string_of_uint d) = true.
Proof. induction d; simpl; auto. Qed.

Lemma int_digits (z : Z) : all_chars plain_char (str z) = true.
Proof.
  assert (Hd : forall c, is_digit c = true -> plain_char c = true).
  { intros c Hc. unfold plain_char. now rewrite Hc. }
  assert (Hu : forall d, all_chars plain_char (NilZero.string_of_uint d) = true).
  { intros d. destruct d; try reflexivity;
      apply (all_chars_impl is_digit); auto; apply uint_digits. }
  unfold str; simpl. destruct (Z.to_int z) as [d|d]; simpl; auto.
Qed.

Lemma int_nonempty (z : Z) : str z <> "".
Proof.
  unfold str; simpl. destruct (Z.to_int z) as [d|d]; simpl; [|discriminate].
  destruct d; discriminate.
Qed.

Lemma int_plain_numeral (z : Z) : plain_numeral (str z) = true.
Proof.
  unfold plain_numeral. rewrite int_digits, andb_true_r.
  destruct (String.eqb_spec (str z) ""); [|reflexivity].
  now destruct (int_nonempty z).
Qed.

Lemma to_int_not_nil (z : Z) :
  Z.to_int z <> Decimal.Pos Decimal.Nil /\ Z.to_int z <> Decimal.Neg Decimal.Nil.
Proof.
  destruct z as [|p|p]; simpl; split; try discriminate;
    intros H; inversion H as [E]; now apply DecimalPos.Unsigned.to_uint_nonnil in E.
Qed.

Lemma int_str_inj (a b : Z) : str a = str b -> a = b.
Proof.
  unfold str; simpl. intros H.
  apply to_int_inj.
  destruct (to_int_not_nil a) as [Ha1 Ha2], (to_int_not_nil b) as [Hb1 Hb2].
  pose proof (NilZero.isi _ Ha1 Ha2) as Ia.
  pose proof (NilZero.isi _ Hb1 Hb2) as Ib.
  rewrite H in Ia. rewrite Ia in Ib. now inversion Ib.
Qed.

(** *** Records and their origins *)

Lemma labels_of_origins {N T : Type} {ON : PyObject N} {OT : PyObject T}
    (exp_id molecule source parent create_date : string) (conc : N)
    (formulation formulation_parent : string) (formulation_conc : option N)
    (time_points : list T) (time_units temperatures vial_orientations : list string)
    (matrix : list (list bool)) (extra_vials : list Z) (study_type : string) :
  map Micro_Label
    (generate_stability_samples exp_id molecule source parent create_date conc
       formulation formulation_parent formulation_conc time_points time_units
       temperatures vial_orientations matrix extra_vials study_type)
  = map (origin_label (study_type =? "DP"))
      (origins time_points time_units temperatures matrix extra_vials).
Proof.
  rewrite generate_unfold. unfold origins. cbn [map]. rewrite !map_app.
  apply f_equal2; [reflexivity|]. apply f_equal2.
  - unfold spec_matrix_records, cell_origins. rewrite !map_flat_map.
    apply flat_map_ext. intros [i time_pt]. cbn [fst snd].
    destruct (truth time_pt); [|reflexivity].
    rewrite !map_flat_map. apply flat_map_ext. intros [j temp]. cbn [fst snd].
    destruct (truth temp && cell_selected matrix i j); [|reflexivity].
    cbn [map]. f_equal. cbn [Micro_Label spec_matrix_record create_sample_record].
    unfold spec_matrix_label, origin_label, time_text, is_DP. cbn [fst snd].
    now rewrite !string_app_assoc.
  - unfold spec_extra_records, extra_origins. rewrite !map_flat_map.
    apply flat_map_ext. intros [j temp]. cbn [fst snd spec_extra_block].
    destruct (truth temp); [|reflexivity].
    rewrite !map_map. apply map_ext. intros k. reflexivity.
Qed.

(** *** The origins of one call are pairwise distinct *)

Lemma NoDup_flat_map_tagged {A B C : Type} (tag : B -> C) (g : A -> C)
    (p : A -> bool) (f : A -> list B) (l : list A) :
  (forall x, In x l -> p x = false -> f x = []) ->
  (forall x, In x l -> NoDup (f x)) ->
  (forall x b, In x l -> In b (f x) -> tag b = g x) ->
  NoDup (map g (filter p l)) ->
  NoDup (flat_map f l).
Proof.
  induction l as [|x l IH]; intros Hp Hf Htag Hg; simpl; [constructor|].
  assert (IHl : NoDup (flat_map f l)).
  { apply IH.
    - intros y Hy. apply Hp. now right.
    - intros y Hy. apply Hf. now right.
    - intros y b Hy. apply Htag. now right.
    - simpl in Hg. destruct (p x); [|exact Hg].
      simpl in Hg. now apply NoDup_cons_iff in Hg. }
  destruct (p x) eqn:Px.
  - apply NoDup_app; [apply Hf; now left|exact IHl|].
    intros b Hbx Hbl. apply in_flat_map in Hbl. destruct Hbl as [y [Hy Hby]].
    simpl in Hg. rewrite Px in Hg. simpl in Hg.
    apply NoDup_cons_iff in Hg. destruct Hg as [Hnot _]. apply Hnot.
    assert (Py : p y = true).
    { destruct (p y) eqn:E; [reflexivity|].
      rewrite (Hp y (or_intror Hy) E) in Hby. destruct Hby. }
    rewrite <- (Htag x b (or_introl eq_refl) Hbx).
    rewrite (Htag y b (or_intror Hy) Hby).
    apply in_map, filter_In. auto.
  - rewrite (Hp x (or_introl eq_refl) Px). exact IHl.
Qed.

Lemma enumerate_filter_snd {A : Type} (p : A -> bool) (l : list A) :
  map snd (filter (fun it : nat * A => p (snd it)) (enumerate l)) = filter p l.
Proof.
  rewrite <- filter_map_swap. unfold enumerate.
  now rewrite enumerate_from_snd.
Qed.

Lemma one_to_NoDup (n : Z) : NoDup (one_to n).
Proof.
  unfold one_to. apply NoDup_map_NoDup_ForallPairs; [|apply seq_NoDup].
  intros a b _ _ H. lia.
Qed.

Section Origins.

Context {T : Type} {OT : PyObject T}.

Variables (time_points : list T) (time_units temperatures : list string).
Variables (matrix : list (list bool)) (extra_vials : list Z).

Hypothesis distinct_temperatures : NoDup (filter truth temperatures).
Hypothesis distinct_time_texts : NoDup (time_texts time_points time_units).

Lemma cell_origins_NoDup :
  NoDup (cell_origins time_points time_units temperatures matrix).
Proof.
  unfold cell_origins.
  apply NoDup_flat_map_tagged with
    (tag := origin_text) (g := time_text time_units)
    (p := fun it : nat * T => truth (snd it)).
  - intros it _ Hp. now rewrite Hp.
  - intros it _. destruct (truth (snd it)); [|constructor].
    apply NoDup_flat_map_tagged with
      (tag := origin_temp) (g := @snd nat string)
      (p := fun jt : nat * string => truth (snd jt)).
    + intros jt _ Hp. now rewrite Hp.
    + intros jt _.
      destruct (truth (snd jt) && cell_selected matrix (fst it) (fst jt));
        repeat constructor. intros [].
    + intros jt o _ Ho.
      destruct (truth (snd jt) && cell_selected matrix (fst it) (fst jt));
        [|destruct Ho].
      destruct Ho as [<-|[]]. reflexivity.
    + rewrite enumerate_filter_snd. exact distinct_temperatures.
  - intros it o _ Ho. destruct (truth (snd it)); [|destruct Ho].
    apply in_flat_map in Ho. destruct Ho as [jt [_ Ho]].
    destruct (truth (snd jt) && cell_selected matrix (fst it) (fst jt));
      [|destruct Ho].
    destruct Ho as [<-|[]]. reflexivity.
  - exact distinct_time_texts.
Qed.

Lemma extra_origins_NoDup : NoDup (extra_origins temperatures extra_vials).
Proof.
  unfold extra_origins.
  apply NoDup_flat_map_tagged with
    (tag := origin_temp) (g := @snd nat string)
    (p := fun jt : nat * string => truth (snd jt)).
  - intros jt _ Hp. now rewrite Hp.
  - intros jt _. destruct (truth (snd jt)); [|constructor].
    apply NoDup_map_NoDup_ForallPairs; [|apply one_to_NoDup].
    intros a b _ _ H. now inversion H.
  - intros jt o _ Ho. destruct (truth (snd jt)); [|destruct Ho].
    apply in_map_iff in Ho. destruct Ho as [k [<- _]]. reflexivity.
  - rewrite enumerate_filter_snd. exact distinct_temperatures.
Qed.

Lemma cell_origins_shape (o : origin) :
  In o (cell_origins time_points time_units temperatures matrix) ->
  exists temp i time_pt,
    o = OriginCell temp (time_text time_units (i, time_pt))
    /\ nth_error time_points i = Some time_pt /\ truth time_pt = true.
Proof.
  unfold cell_origins. intros Ho.
  apply in_flat_map in Ho. destruct Ho as [[i time_pt] [Hi Ho]].
  cbn [fst snd] in Ho. destruct (truth time_pt) eqn:Ht; [|destruct Ho].
  apply in_flat_map in Ho. destruct Ho as [[j temp] [_ Ho]].
  cbn [fst snd] in Ho.
  destruct (truth temp && cell_selected matrix i j); [|destruct Ho].
  destruct Ho as [<-|[]]. exists temp, i, time_pt.
  split; [reflexivity|]. split; [now apply enumerate_nth|exact Ht].
Qed.

Lemma extra_origins_shape (o : origin) :
  In o (extra_origins temperatures extra_vials) ->
  exists temp k, o = OriginExtra temp k.
Proof.
  unfold extra_origins. intros Ho.
  apply in_flat_map in Ho. destruct Ho as [jt [_ Ho]].
  destruct (truth (snd jt)); [|destruct Ho].
  apply in_map_iff in Ho. destruct Ho as [k [<- _]]. eauto.
Qed.

Lemma origins_NoDup :
  NoDup (origins time_points time_units temperatures matrix extra_vials).
Proof.
  unfold origins. constructor.
  - intros H. apply in_app_or in H. destruct H as [H|H].
    + apply cell_origins_shape in H. destruct H as [? [? [? [H _]]]].
      discriminate H.
    + apply extra_origins_shape in H. destruct H as [? [? H]]. discriminate H.
  - apply NoDup_app;
      [apply cell_origins_NoDup|apply extra_origins_NoDup|].
    intros o Hc He. apply cell_origins_shape in Hc. apply extra_origins_shape in He.
    destruct Hc as [? [? [? [-> _]]]]. destruct He as [? [? He]]. discriminate He.
Qed.

Hypothesis numeric_time_points :
  Forall (fun time_pt => truth time_pt = true -> plain_numeral (str time_pt) = true)
    time_points.

Lemma origins_good :
  Forall good_origin
    (origins time_points time_units temperatures matrix extra_vials).
Proof.
  apply Forall_forall. intros o Ho. unfold origins in Ho.
  destruct Ho as [<-|Ho]; [exact I|].
  apply in_app_or in Ho. destruct Ho as [Ho|Ho].
  - apply cell_origins_shape in Ho.
    destruct Ho as [temp [i [time_pt [-> [Hi Ht]]]]].
    assert (Hnum : plain_numeral (str time_pt) = true).
    { rewrite Forall_forall in numeric_time_points.
      apply numeric_time_points; [|exact Ht].
      eapply nth_error_In; eauto. }
    simpl. unfold time_text. cbn [fst snd]. split.
    + unfold no_comma. rewrite all_chars_app.
      apply andb_true_iff. split.
      * now apply plain_numeral_no_comma.
      * apply unit_suffix_no_comma.
    + destruct (plain_numeral_head _ Hnum) as [c [r [-> Hc]]].
      simpl. eauto.
  - apply extra_origins_shape in Ho. destruct Ho as [? [? ->]]. exact I.
Qed.

End Origins.

(** *** Distinct origins have distinct micro-labels *)

Lemma cell_label_form (dp : bool) (temp text : string) :
  origin_label dp (OriginCell temp text)
  = temp ++ String "," (String " " (text ++ ds_tail dp)).
Proof. reflexivity. Qed.

Lemma extra_label_form (dp : bool) (temp : string) (k : Z) :
  origin_label dp (OriginExtra temp k)
  = temp ++ String "," (" extra" ++ str k).
Proof. reflexivity. Qed.

Lemma cell_rest_no_comma (dp : bool) (text : string) :
  no_comma text = true ->
  no_comma (String " " (text ++ ds_tail dp)) = true.
Proof.
  intros H. unfold no_comma in *. cbn [all_chars]. rewrite all_chars_app, H.
  now destruct dp.
Qed.

Lemma extra_rest_no_comma (k : Z) : no_comma (" extra" ++ str k) = true.
Proof.
  unfold no_comma. rewrite all_chars_app. apply andb_true_iff. split.
  - reflexivity.
  - apply plain_numeral_no_comma, int_plain_numeral.
Qed.

Lemma comma_in_label (a x : string) : no_comma (a ++ String "," x) = false.
Proof.
  unfold no_comma. rewrite all_chars_app. cbn [all_chars].
  now rewrite andb_false_r.
Qed.

Lemma origin_label_inj (dp : bool) (o1 o2 : origin) :
  good_origin o1 -> good_origin o2 ->
  origin_label dp o1 = origin_label dp o2 -> o1 = o2.
Proof.
  assert (Ht0_cell : forall temp text,
             good_origin (OriginCell temp text) ->
             origin_label dp OriginT0 <> origin_label dp (OriginCell temp text)).
  { intros temp text [Hnc [c [r [-> Hc]]]]. rewrite cell_label_form.
    destruct dp.
    - intros H. simpl in H. apply (f_equal no_comma) in H.
      rewrite comma_in_label in H. discriminate H.
    - intros H. change (origin_label false OriginT0)
        with ("t0" ++ String "," " DS") in H.
      apply split_at_last_comma in H;
        [|reflexivity|now apply cell_rest_no_comma].
      destruct H as [_ H]. apply (f_equal String.length) in H.
      simpl in H. rewrite string_length_app in H. simpl in H. lia. }
  assert (Ht0_extra : forall temp k,
             origin_label dp OriginT0 <> origin_label dp (OriginExtra temp k)).
  { intros temp k. rewrite extra_label_form. destruct dp.
    - intros H. simpl in H. apply (f_equal no_comma) in H.
      rewrite comma_in_label in H. discriminate H.
    - intros H. change (origin_label false OriginT0)
        with ("t0" ++ String "," " DS") in H.
      apply split_at_last_comma in H;
        [|reflexivity|apply extra_rest_no_comma].
      destruct H as [_ H]. simpl in H. discriminate H. }
  assert (Hcell_extra : forall temp text temp' k,
             good_origin (OriginCell temp text) ->
             origin_label dp (OriginCell temp text)
             <> origin_label dp (OriginExtra temp' k)).
  { intros temp text temp' k [Hnc [c [r [-> Hc]]]].
    rewrite cell_label_form, extra_label_form. intros H.
    apply split_at_last_comma in H;
      [|now apply cell_rest_no_comma|apply extra_rest_no_comma].
    destruct H as [_ H]. simpl in H. inversion H; subst.
    vm_compute in Hc. discriminate Hc. }
  intros G1 G2 H.
  destruct o1 as [|temp1 text1|temp1 k1], o2 as [|temp2 text2|temp2 k2].
  - reflexivity.
  - now destruct (Ht0_cell temp2 text2 G2).
  - now destruct (Ht0_extra temp2 k2).
  - symmetry in H. now destruct (Ht0_cell temp1 text1 G1).
  - rewrite !cell_label_form in H.
    destruct G1 as [Hn1 _], G2 as [Hn2 _].
    apply split_at_last_comma in H; [|now apply cell_rest_no_comma..].
    destruct H as [-> H]. inversion H as [E].
    apply string_app_inv_tail in E. now subst.
  - now destruct (Hcell_extra temp1 text1 temp2 k2 G1).
  - symmetry in H. now destruct (Ht0_extra temp1 k1).
  - symmetry in H. now destruct (Hcell_extra temp2 text2 temp1 k1 G2).
  - rewrite !extra_label_form in H.
    apply split_at_last_comma in H; [|apply extra_rest_no_comma..].
    destruct H as [-> H]. simpl in H. inversion H as [E].
    apply int_str_inj in E. now subst.
Qed.

(** C4 (amended): within one generation call, when the non-empty temperature
    labels are pairwise distinct, the time points that are not skipped render
    as plain numerals, and their texts (rendered value followed by the unit
    letter) are pairwise distinct, no two emitted records have the same
    micro-label. *)
Theorem C4_micro_labels_distinct {N T : Type} {ON : PyObject N} {OT : PyObject T}
    (exp_id molecule source parent create_date : string) (conc : N)
    (formulation formulation_parent : string) (formulation_conc : option N)
    (time_points : list T) (time_units temperatures vial_orientations : list string)
    (matrix : list (list bool)) (extra_vials : list Z) (study_type : string) :
  NoDup (filter truth temperatures) ->
  NoDup (time_texts time_points time_units) ->
  Forall (fun time_pt =>
            truth time_pt = true -> plain_numeral (str time_pt) = true)
    time_points ->
  NoDup
    (map Micro_Label
       (generate_stability_samples exp_id molecule source parent create_date
          conc formulation formulation_parent formulation_conc time_points
          time_units temperatures vial_orientations matrix extra_vials
          study_type)).
Proof.
  intros Htemps Htexts Hnum. rewrite labels_of_origins.
  apply NoDup_map_NoDup_ForallPairs; [|now apply origins_NoDup].
  pose proof (origins_good time_points time_units temperatures matrix
                extra_vials Hnum) as Hgood.
  rewrite Forall_forall in Hgood.
  intros o1 o2 H1 H2. apply origin_label_inj; auto.
Qed.

Lemma C4_micro_labels_distinct_witness :
  NoDup
    (map Micro_Label
       (generate_stability_samples (N:=Z) (T:=Z) "EXP1" "mAb1" "SrcA" "P1"
          "2024-01-01" 100%Z "F1" "" None [1%Z; 0%Z; 3%Z] ["month"; "week"]
          ["2-8°C"; ""; "25°C"] ["upright"; ""; "inverted"]
          [[true; true; true]; [true]; [false; true; true]]
          [1%Z; 2%Z; 2%Z] "DS")).
Proof.
  apply (C4_micro_labels_distinct (N:=Z) (T:=Z)).
  - vm_compute. repeat constructor; simpl; intuition discriminate.
  - vm_compute. repeat constructor; simpl; intuition discriminate.
  - repeat constructor; intros _; apply int_plain_numeral.
Defined.

(** * Further properties of the generator *)

Lemma flat_map_ext_In {A B : Type} (f g : A -> list B) (l : list A) :
  (forall x, In x l -> f x = g x) -> flat_map f l = flat_map g l.
Proof.
  induction l as [|x l IH]; intros H; simpl; [reflexivity|].
  rewrite (H x (or_introl eq_refl)), IH; [reflexivity|].
  intros y Hy. apply H. now right.
Qed.

Lemma flat_map_nil {A B : Type} (f : A -> list B) (l : list A) :
  (forall x, In x l -> f x = []) -> flat_map f l = [].
Proof.
  intros H. rewrite (flat_map_ext_In f (fun _ => []) l H).
  clear H. induction l as [|x l IH]; simpl; [reflexivity|exact IH].
Qed.

(** Two calls that differ in the orientation list and the study type,
    compared column by column. *)
Lemma generate_columns_agree {N T C : Type} {ON : PyObject N} {OT : PyObject T}
    (f g : SampleRecord N T -> C)
    (exp_id molecule source parent create_date : string) (conc : N)
    (formulation formulation_parent : string) (formulation_conc : option N)
    (time_points : list T) (time_units temperatures : list string)
    (vials1 vials2 : list string)
    (matrix : list (list bool)) (extra_vials : list Z) (st1 st2 : string) :
  f (spec_t0_record exp_id molecule source parent create_date conc formulation
       formulation_parent formulation_conc time_units st1)
  = g (spec_t0_record exp_id molecule source parent create_date conc formulation
         formulation_parent formulation_conc time_units st2) ->
  (forall i time_pt j temp,
      truth temp = true ->
      f (spec_matrix_record exp_id molecule source parent create_date conc
           formulation formulation_parent formulation_conc time_units vials1
           st1 i time_pt j temp)
      = g (spec_matrix_record exp_id molecule source parent create_date conc
             formulation formulation_parent formulation_conc time_units vials2
             st2 i time_pt j temp)) ->
  (forall j temp k,
      truth temp = true ->
      f (spec_extra_record exp_id molecule source parent create_date conc
           formulation formulation_parent formulation_conc vials1 st1 j temp k)
      = g (spec_extra_record exp_id molecule source parent create_date conc
             formulation formulation_parent formulation_conc vials2 st2 j temp
             k)) ->
  map f (generate_stability_samples exp_id molecule source parent create_date
           conc formulation formulation_parent formulation_conc time_points
           time_units temperatures vials1 matrix extra_vials st1)
  = map g (generate_stability_samples exp_id molecule source parent create_date
             conc formulation formulation_parent formulation_conc time_points
             time_units temperatures vials2 matrix extra_vials st2).
Proof.
  intros H0 Hm He. rewrite !generate_unfold. cbn [map].
  apply f_equal2; [exact H0|]. rewrite !map_app. apply f_equal2.
  - unfold spec_matrix_records. rewrite !map_flat_map.
    apply flat_map_ext. intros [i time_pt].
    destruct (truth time_pt); [|reflexivity].
    rewrite !map_flat_map. apply flat_map_ext. intros [j temp].
    destruct (truth temp) eqn:Ht; [|reflexivity].
    destruct (cell_selected matrix i j); [|reflexivity].
    cbn [andb map]. now rewrite Hm.
  - unfold spec_extra_records. rewrite !map_flat_map.
    apply flat_map_ext. intros [j temp]. unfold spec_extra_block.
    destruct (truth temp) eqn:Ht; [|reflexivity].
    rewrite !map_map. apply map_ext. intros k. now apply He.
Qed.

(** X1: in every record of a generation call the description and the label
    are the same text, and that text is the trimmed line made of the
    molecule, the source and the record's own formulation, concentration,
    micro-label and vial-orientation columns. *)
Theorem X1_label_text_of_columns {N T : Type} {ON : PyObject N} {OT : PyObject T}
    (exp_id molecule source parent create_date : string) (conc : N)
    (formulation formulation_parent : string) (formulation_conc : option N)
    (time_points : list T) (time_units temperatures vial_orientations : list string)
    (matrix : list (list bool)) (extra_vials : list Z) (study_type : string) :
  Forall (fun r =>
      Description r = Label r
      /\ Label r
         = strip (molecule ++ " " ++ source ++ ", " ++ Formulation r ++ ", "
                  ++ str (Conc r) ++ " mg/mL, " ++ Micro_Label r ++ " "
                  ++ Storage_Vial_Orientation_Conditions r))
    (generate_stability_samples exp_id molecule source parent create_date conc
       formulation formulation_parent formulation_conc time_points time_units
       temperatures vial_orientations matrix extra_vials study_type).
Proof.
  rewrite generate_unfold. constructor; [split; reflexivity|].
  apply Forall_app. split.
  - apply matrix_records_Forall. intros. split; reflexivity.
  - apply extra_records_Forall. intros. split; reflexivity.
Qed.

(** X2: every record of a generation call carries the call's experiment id,
    formulation name and sample date, the formulation's parent when that is
    not empty and the default parent otherwise, and empty transportation and
    freeze/thaw columns. *)
Theorem X2_shared_columns {N T : Type} {ON : PyObject N} {OT : PyObject T}
    (exp_id molecule source parent create_date : string) (conc : N)
    (formulation formulation_parent : string) (formulation_conc : option N)
    (time_points : list T) (time_units temperatures vial_orientations : list string)
    (matrix : list (list bool)) (extra_vials : list Z) (study_type : string) :
  Forall (fun r =>
      Experiment_Id r = exp_id
      /\ Formulation r = formulation
      /\ Sample_Date r = create_date
      /\ Parent r = (if formulation_parent =? "" then parent
                     else formulation_parent)
      /\ Transportation r = ""
      /\ Stability_Freeze_Thaw_Count r = "")
    (generate_stability_samples exp_id molecule source parent create_date conc
       formulation formulation_parent formulation_conc time_points time_units
       temperatures vial_orientations matrix extra_vials study_type).
Proof.
  assert (Hp : resolve_parent formulation_parent parent
               = if formulation_parent =? "" then parent
                 else formulation_parent).
  { unfold resolve_parent, truth; simpl.
    now destruct (formulation_parent =? ""). }
  rewrite generate_unfold. constructor; [simpl; rewrite Hp; repeat split|].
  apply Forall_app. split.
  - apply matrix_records_Forall. intros. simpl. rewrite Hp. repeat split.
  - apply extra_records_Forall. intros. simpl. rewrite Hp. repeat split.
Qed.

(** X3: the generator reads the selection matrix only at the cells whose
    row index lies within the time-point list and whose column index lies
    within the temperature list: two matrices that agree on those cells
    (rows or cells may be missing or surplus elsewhere) give the same
    records. *)
Theorem X3_matrix_read_in_range {N T : Type} {ON : PyObject N} {OT : PyObject T}
    (exp_id molecule source parent create_date : string) (conc : N)
    (formulation formulation_parent : string) (formulation_conc : option N)
    (time_points : list T) (time_units temperatures vial_orientations : list string)
    (matrix1 matrix2 : list (list bool)) (extra_vials : list Z)
    (study_type : string) :
  (forall i j,
      (i < List.length time_points)%nat -> (j < List.length temperatures)%nat ->
      cell_selected matrix1 i j = cell_selected matrix2 i j) ->
  generate_stability_samples exp_id molecule source parent create_date conc
    formulation formulation_parent formulation_conc time_points time_units
    temperatures vial_orientations matrix1 extra_vials study_type
  = generate_stability_samples exp_id molecule source parent create_date conc
      formulation formulation_parent formulation_conc time_points time_units
      temperatures vial_orientations matrix2 extra_vials study_type.
Proof.
  intros H. rewrite !generate_unfold. f_equal. f_equal.
  unfold spec_matrix_records.
  apply flat_map_ext_In. intros [i time_pt] Hi. apply enumerate_nth in Hi.
  destruct (truth time_pt); [|reflexivity].
  apply flat_map_ext_In. intros [j temp] Hj. apply enumerate_nth in Hj.
  rewrite H; [reflexivity| |].
  - apply nth_error_Some. now rewrite Hi.
  - apply nth_error_Some. now rewrite Hj.
Qed.

Lemma X3_matrix_read_in_range_witness :
  generate_stability_samples (N:=Z) (T:=Z) "EXP1" "mAb1" "SrcA" "P1"
    "2024-01-01" 100%Z "F1" "" None [1%Z] ["month"] ["2-8°C"; "25°C"]
    ["upright"] [[true]] [0%Z] "DP"
  = generate_stability_samples (N:=Z) (T:=Z) "EXP1" "mAb1" "SrcA" "P1"
      "2024-01-01" 100%Z "F1" "" None [1%Z] ["month"] ["2-8°C"; "25°C"]
      ["upright"] [[true; false; true]; [true; true]] [0%Z] "DP".
Proof.
  apply (X3_matrix_read_in_range (N:=Z) (T:=Z)).
  intros i j Hi Hj. simpl in Hi, Hj.
  destruct i as [|i]; [|lia].
  destruct j as [|[|j]]; [reflexivity|reflexivity|lia].
Defined.

(** X4: a call whose temperature labels are all empty (in particular a call
    without temperatures) returns exactly the T0 record, whatever the time
    points, the matrix and the extra-vial counts; a call whose time points
    are all zero or empty (in particular a call without time points) returns
    the T0 record followed by extra-vial records only. *)
Theorem X4_degenerate_inputs {N T : Type} {ON : PyObject N} {OT : PyObject T}
    (exp_id molecule source parent create_date : string) (conc : N)
    (formulation formulation_parent : string) (formulation_conc : option N)
    (time_points : list T) (time_units temperatures vial_orientations : list string)
    (matrix : list (list bool)) (extra_vials : list Z) (study_type : string) :
  let out :=
    generate_stability_samples exp_id molecule source parent create_date conc
      formulation formulation_parent formulation_conc time_points time_units
      temperatures vial_orientations matrix extra_vials study_type in
  (Forall (fun temp => temp = "") temperatures ->
   exists t0, out = [t0] /\ is_t0_record t0 = true)
  /\ (Forall (fun time_pt => truth time_pt = false) time_points ->
      exists t0 extras,
        out = t0 :: extras /\ is_t0_record t0 = true
        /\ Forall (fun r => is_extra_record r = true) extras).
Proof.
  intros out. subst out. rewrite generate_unfold. split.
  - intros Hall. rewrite Forall_forall in Hall.
    eexists. split.
    + f_equal. unfold spec_matrix_records, spec_extra_records.
      rewrite !flat_map_nil; [reflexivity| |].
      * intros [j temp] Hj. apply enumerate_nth, nth_error_In in Hj.
        unfold spec_extra_block. now rewrite (Hall temp Hj).
      * intros [i time_pt] _. destruct (truth time_pt); [|reflexivity].
        apply flat_map_nil. intros [j temp] Hj.
        apply enumerate_nth, nth_error_In in Hj. now rewrite (Hall temp Hj).
    + reflexivity.
  - intros Hall. rewrite Forall_forall in Hall.
    unfold spec_matrix_records. rewrite flat_map_nil.
    + eexists. eexists. split; [reflexivity|].
      split; [reflexivity|]. apply extra_records_Forall. reflexivity.
    + intros [i time_pt] Hi. apply enumerate_nth, nth_error_In in Hi.
      now rewrite (Hall time_pt Hi).
Qed.

Lemma X4_degenerate_inputs_witness :
  (exists t0 : SampleRecord Z Z,
      generate_stability_samples "EXP1" "mAb1" "SrcA" "P1" "2024-01-01" 100%Z
        "F1" "" None [1%Z] ["month"] [""; ""] ["upright"] [[true; true]]
        [2%Z; 1%Z] "DP" = [t0]
      /\ is_t0_record t0 = true)
  /\ (exists (t0 : SampleRecord Z Z) extras,
        generate_stability_samples "EXP1" "mAb1" "SrcA" "P1" "2024-01-01"
          100%Z "F1" "" None [0%Z; 0%Z] ["month"] ["2-8°C"] ["upright"]
          [[true]; [true]] [2%Z] "DP" = t0 :: extras
        /\ is_t0_record t0 = true
        /\ Forall (fun r => is_extra_record r = true) extras).
Proof.
  split.
  - apply (X4_degenerate_inputs (N:=Z) (T:=Z) "EXP1" "mAb1" "SrcA" "P1"
             "2024-01-01" 100%Z "F1" "" None [1%Z] ["month"] [""; ""]
             ["upright"] [[true; true]] [2%Z; 1%Z] "DP").
    repeat constructor.
  - apply (X4_degenerate_inputs (N:=Z) (T:=Z) "EXP1" "mAb1" "SrcA" "P1"
             "2024-01-01" 100%Z "F1" "" None [0%Z; 0%Z] ["month"] ["2-8°C"]
             ["upright"] [[true]; [true]] [2%Z] "DP").
    repeat constructor.
Defined.

(** X5: a DS call and a DP call on the same inputs give records that agree
    in time point, time unit, concentration, parent and vial orientation,
    record by record; the temperature a DP record carries in its storage
    column is the one the DS record carries in its DS column, and the other
    column is empty in every record. *)
Theorem X5_study_type_swaps_columns {N T : Type} {ON : PyObject N} {OT : PyObject T}
    (exp_id molecule source parent create_date : string) (conc : N)
    (formulation formulation_parent : string) (formulation_conc : option N)
    (time_points : list T) (time_units temperatures vial_orientations : list string)
    (matrix : list (list bool)) (extra_vials : list Z) :
  let run study_type :=
    generate_stability_samples exp_id molecule source parent create_date conc
      formulation formulation_parent formulation_conc time_points time_units
      temperatures vial_orientations matrix extra_vials study_type in
  map DS_Temperature (run "DS") = map Storage_Temp (run "DP")
  /\ map Storage_Temp (run "DS") = map DS_Temperature (run "DP")
  /\ Forall (fun r => Storage_Temp r = "") (run "DS")
  /\ Forall (fun r => DS_Temperature r = "") (run "DP")
  /\ map (fun r => (Time_Point r, Time_Point_Units r, Conc r, Parent r,
                    Storage_Vial_Orientation_Conditions r)) (run "DS")
     = map (fun r => (Time_Point r, Time_Point_Units r, Conc r, Parent r,
                      Storage_Vial_Orientation_Conditions r)) (run "DP").
Proof.
  intros run. subst run. cbv beta.
  split; [|split; [|split; [|split]]].
  - apply generate_columns_agree; reflexivity.
  - apply generate_columns_agree; reflexivity.
  - rewrite generate_unfold. constructor; [reflexivity|].
    apply Forall_app. split.
    + apply matrix_records_Forall. reflexivity.
    + apply extra_records_Forall. reflexivity.
  - rewrite generate_unfold. constructor; [reflexivity|].
    apply Forall_app. split.
    + apply matrix_records_Forall. reflexivity.
    + apply extra_records_Forall. reflexivity.
  - apply generate_columns_agree; reflexivity.
Qed.

(** * The trimmed label text *)

Lemma string_rev_app (s1 s2 : string) :
  string_rev (s1 ++ s2) = string_rev s2 ++ string_rev s1.
Proof.
  induction s1 as [|a s1 IH]; simpl.
  - now rewrite string_app_nil_r.
  - now rewrite IH, string_app_assoc.
Qed.

Lemma string_rev_involutive (s : string) : string_rev (string_rev s) = s.
Proof.
  induction s as [|a s IH]; simpl; [reflexivity|].
  now rewrite string_rev_app, IH.
Qed.

Lemma lstrip_no_space_bounded (n : nat) :
  forall s, (String.length s <= n)%nat -> starts_with_space (lstrip s) = false.
Proof.
  induction n as [|n IH]; intros s Hn.
  - destruct s; [reflexivity|simpl in Hn; lia].
  - destruct s as [|a r1]; [reflexivity|]. simpl in Hn. cbn [lstrip].
    destruct (is_space1 a) eqn:E1; [apply IH; lia|].
    destruct r1 as [|b r2]; [cbn; now rewrite E1|]. simpl in Hn.
    destruct (is_space2 a b) eqn:E2; [apply IH; lia|].
    destruct r2 as [|c r3]; [cbn; now rewrite E1, E2|]. simpl in Hn.
    destruct (is_space3 a b c) eqn:E3; [apply IH; lia|].
    cbn. now rewrite E1, E2, E3.
Qed.

Lemma lstrip_no_space (s : string) : starts_with_space (lstrip s) = false.
Proof. now apply (lstrip_no_space_bounded (String.length s)). Qed.

Lemma lstrip_rev_no_space_bounded (n : nat) :
  forall s, (String.length s <= n)%nat ->
            starts_with_space_rev (lstrip_rev s) = false.
Proof.
  induction n as [|n IH]; intros s Hn.
  - destruct s; [reflexivity|simpl in Hn; lia].
  - destruct s as [|a r1]; [reflexivity|]. simpl in Hn. cbn [lstrip_rev].
    destruct (is_space1 a) eqn:E1; [apply IH; lia|].
    destruct r1 as [|b r2]; [cbn; now rewrite E1|]. simpl in Hn.
    destruct (is_space2 b a) eqn:E2; [apply IH; lia|].
    destruct r2 as [|c r3]; [cbn; now rewrite E1, E2|]. simpl in Hn.
    destruct (is_space3 c b a) eqn:E3; [apply IH; lia|].
    cbn. now rewrite E1, E2, E3.
Qed.

Lemma lstrip_rev_suffix_bounded (n : nat) :
  forall s, (String.length s <= n)%nat -> exists p, s = p ++ lstrip_rev s.
Proof.
  induction n as [|n IH]; intros s Hn.
  - destruct s; [now exists ""|simpl in Hn; lia].
  - destruct s as [|a r1]; [now exists ""|]. simpl in Hn. cbn [lstrip_rev].
    destruct (is_space1 a).
    { destruct (IH r1) as [p Hp]; [lia|].
      exists (String a p). simpl. now rewrite <- Hp. }
    destruct r1 as [|b r2]; [now exists ""|]. simpl in Hn.
    destruct (is_space2 b a).
    { destruct (IH r2) as [p Hp]; [lia|].
      exists (String a (String b p)). simpl. now rewrite <- Hp. }
    destruct r2 as [|c r3]; [now exists ""|]. simpl in Hn.
    destruct (is_space3 c b a).
    { destruct (IH r3) as [p Hp]; [lia|].
      exists (String a (String b (String c p))). simpl. now rewrite <- Hp. }
    now exists "".
Qed.

(** Trimming on the right leaves a prefix of the text. *)
Lemma rstrip_prefix (s : string) : exists q, s = rstrip s ++ q.
Proof.
  unfold rstrip.
  destruct (lstrip_rev_suffix_bounded (String.length (string_rev s))
              (string_rev s) (le_n _)) as [p Hp].
  exists (string_rev p).
  rewrite <- string_rev_app, <- Hp. now rewrite string_rev_involutive.
Qed.

Lemma starts_with_space_prefix (x q : string) :
  starts_with_space (x ++ q) = false -> starts_with_space x = false.
Proof.
  destruct x as [|a [|b [|c r]]]; cbn; try reflexivity.
  - destruct (is_space1 a); [|reflexivity]. now destruct q.
  - destruct (is_space1 a); [now destruct q|].
    destruct (is_space2 a b); [now destruct q|]. reflexivity.
  - auto.
Qed.

Lemma strip_no_space (s : string) :
  starts_with_space (strip s) = false /\ ends_with_space (strip s) = false.
Proof.
  unfold strip. split.
  - destruct (rstrip_prefix (lstrip s)) as [q Hq].
    apply starts_with_space_prefix with (q := q).
    rewrite <- Hq. apply lstrip_no_space.
  - unfold ends_with_space, rstrip. rewrite string_rev_involutive.
    now apply (lstrip_rev_no_space_bounded
                 (String.length (string_rev (lstrip s)))).
Qed.

(** X6: the description and the label of a record built by
    [create_sample_record] neither begin nor end with a whitespace character,
    whatever the arguments; in particular no blank is left at the end when
    the vial orientation is empty. *)
Theorem X6_label_is_trimmed {N T : Type} {ON : PyObject N} {OT : PyObject T}
    (exp_id molecule source formulation parent create_date : string)
    (conc : N) (label micro_label : string) (time_pt : PyCell T)
    (time_unit temp temp_ds vial_o transport freeze_thaw : string) :
  let r :=
    create_sample_record exp_id molecule source formulation parent create_date
      conc label micro_label time_pt time_unit temp temp_ds vial_o transport
      freeze_thaw in
  starts_with_space (Label r) = false
  /\ ends_with_space (Label r) = false
  /\ starts_with_space (Description r) = false
  /\ ends_with_space (Description r) = false.
Proof.
  intros r. subst r. cbn [Label Description create_sample_record].
  pose proof (strip_no_space
    (molecule ++ " " ++ source ++ ", " ++ formulation ++ ", " ++ str conc
     ++ " mg/mL, " ++ micro_label ++ " " ++ vial_o)) as [H1 H2].
  auto.
Qed.

Example label_without_orientation :
  Label (create_sample_record (N:=Z) (T:=Z) "EXP1" " mAb1" "SrcA" "F1" "P1"
           "2024-01-01" 100%Z "ignored" "t0" (CInt 0) "" "" "" "" "" "")
  = "mAb1 SrcA, F1, 100 mg/mL, t0".
Proof. vm_compute. reflexivity. Qed.

(** * The button handlers *)

Lemma py_sum_lengths {A : Type} (f : A -> nat) (l : list A) :
  py_sum (map (fun x => Z.of_nat (f x)) l) = Z.of_nat (list_sum (map f l)).
Proof.
  unfold py_sum.
  assert (H : forall a : Z,
             fold_left Z.add (map (fun x => Z.of_nat (f x)) l) a
             = (a + Z.of_nat (list_sum (map f l)))%Z).
  { induction l as [|x l IH]; intros a; simpl; [lia|]. rewrite IH. lia. }
  rewrite H. lia.
Qed.

Lemma list_truth_false {A : Type} (l : list A) :
  list_truth l = false <-> l = [].
Proof. unfold list_truth. destruct l; simpl; split; intros H; congruence. Qed.

Lemma py_all_required (exp_id molecule source parent : string) :
  py_all [exp_id; molecule; source; parent] = false
  <-> exp_id = "" \/ molecule = "" \/ source = "" \/ parent = "".
Proof.
  unfold py_all, truth; simpl.
  destruct (String.eqb_spec exp_id ""), (String.eqb_spec molecule ""),
    (String.eqb_spec source ""), (String.eqb_spec parent "");
    simpl; intuition congruence.
Qed.

Section TabProofs.

Context {N T : Type} {ON : PyObject N} {OT : PyObject T}.

Variables (exp_id molecule source parent create_date : string) (concentration : N).

Lemma extend_loop (g : FormData N -> list (SampleRecord N T))
    (forms : list (FormData N)) (session : list (SampleRecord N T)) :
  fold_left (fun session form_data =>
      let samples := g form_data in (session ++ samples)%list)
    forms session
  = (session ++ flat_map g forms)%list.
Proof. now apply fold_left_appending. Qed.

Lemma length_generate_call (times : list T) (units temps vials : list string)
    (matrix : list (list bool)) (extras : list Z) (study_type : string)
    (form_data : FormData N) :
  List.length
    (tab_generate_call exp_id molecule source parent create_date concentration
       times units temps vials matrix extras study_type form_data)
  = (1 + count_selected_cells times temps matrix
     + list_sum (map (fun jt : nat * string =>
                        if truth (snd jt)
                        then Z.to_nat (Z.max 0 (aligned extras (fst jt) 0%Z))
                        else 0%nat)
                   (enumerate temps)))%nat.
Proof.
  unfold tab_generate_call. rewrite generate_unfold. cbn [List.length].
  rewrite length_app, length_matrix_records.
  unfold spec_extra_records. rewrite length_flat_map.
  rewrite (map_ext
             (fun x => List.length
                (spec_extra_block (N:=N) (T:=T) exp_id molecule source parent
                   create_date concentration (fd_formulation form_data)
                   (fd_parent form_data) (fd_concentration form_data) vials
                   extras study_type x))
             (fun jt : nat * string =>
                if truth (snd jt)
                then Z.to_nat (Z.max 0 (aligned extras (fst jt) 0%Z))
                else 0%nat)); [reflexivity|].
  intros [j temp]. unfold spec_extra_block. cbn [fst snd].
  destruct (truth temp); [|reflexivity].
  now rewrite length_map, length_one_to.
Qed.

Lemma ft_form_body_spec (ft_cycles : list Z) (form_data : FormData N)
    (session : list (SampleRecord N T)) :
  ft_form_body exp_id molecule source parent create_date concentration
    ft_cycles session form_data
  = (session ++
     map (fun cycle =>
            create_sample_record exp_id molecule source
              (fd_formulation form_data)
              (resolve_parent (fd_parent form_data) parent) create_date
              (resolve_conc (fd_concentration form_data) concentration)
              (str cycle ++ "X FT") (str cycle ++ "X FT") (CStr "") "" "" ""
              "" "" (str cycle))
       ft_cycles)%list.
Proof.
  unfold ft_form_body.
  rewrite fold_left_appending with
    (g := fun cycle : Z =>
            [create_sample_record exp_id molecule source
               (fd_formulation form_data)
               (resolve_parent (fd_parent form_data) parent) create_date
               (resolve_conc (fd_concentration form_data) concentration)
               (str cycle ++ "X FT") (str cycle ++ "X FT") (CStr "") "" "" ""
               "" "" (str cycle)]).
  - apply f_equal. induction ft_cycles as [|c l IH]; simpl;
      [reflexivity|now rewrite IH].
  - intros acc cycle. reflexivity.
Qed.


End TabProofs.

(** X7: when the four study fields are filled in and at least one
    formulation is given, "Generate DP Samples" appends to the session the
    generator's records for each formulation, in the order of the
    formulations; every formulation contributes the same number of records
    (one T0 record, one per selected cell, and the extra vials), and the
    number shown in the success notice is the number of records appended. *)
Theorem X7_dp_tab_appends_and_counts {N T : Type} {ON : PyObject N} {OT : PyObject T}
    (exp_id molecule source parent create_date : string) (concentration : N)
    (dp_formulations : list (FormData N))
    (dp_times : list T) (dp_units dp_temps dp_vials : list string)
    (dp_matrix : list (list bool)) (dp_extras : list Z)
    (session_samples : list (SampleRecord N T)) :
  exp_id <> "" -> molecule <> "" -> source <> "" -> parent <> "" ->
  dp_formulations <> [] ->
  let appended :=
    flat_map (tab_generate_call exp_id molecule source parent create_date
                concentration dp_times dp_units dp_temps dp_vials dp_matrix
                dp_extras "DP")
      dp_formulations in
  let per_formulation :=
    (1 + count_selected_cells dp_times dp_temps dp_matrix
     + list_sum (map (fun jt : nat * string =>
                        if truth (snd jt)
                        then Z.to_nat (Z.max 0 (aligned dp_extras (fst jt) 0%Z))
                        else 0%nat)
                   (enumerate dp_temps)))%nat in
  tab1_generate exp_id molecule source parent create_date concentration
    dp_formulations dp_times dp_units dp_temps dp_vials dp_matrix dp_extras
    session_samples
  = (NoticeSuccess
       ("✅ Generated " ++ str (Z.of_nat (List.length appended))
        ++ " DP samples!"),
     (session_samples ++ appended)%list)
  /\ List.length appended
     = (List.length dp_formulations * per_formulation)%nat.
Proof.
  intros He Hm Hs Hp Hf appended per_formulation.
  assert (Hall : py_all [exp_id; molecule; source; parent] = true).
  { destruct (py_all [exp_id; molecule; source; parent]) eqn:E; [reflexivity|].
    apply py_all_required in E. intuition congruence. }
  assert (Hforms : list_truth dp_formulations = true).
  { destruct (list_truth dp_formulations) eqn:E; [reflexivity|].
    apply list_truth_false in E. congruence. }
  split.
  - unfold tab1_generate. rewrite Hall, Hforms. cbn [negb].
    rewrite extend_loop. f_equal. f_equal. f_equal. f_equal.
    rewrite py_sum_lengths. unfold appended. now rewrite length_flat_map.
  - unfold appended. rewrite length_flat_map.
    rewrite (map_ext _ (fun _ => per_formulation)).
    + clear. induction dp_formulations as [|fd l IH]; simpl; [reflexivity|].
      rewrite IH. lia.
    + intros fd. apply length_generate_call.
Qed.

Lemma X7_dp_tab_appends_and_counts_witness :
  let forms := [mkFormData "F1" "" None; mkFormData "F2" "P2" (Some 50%Z)] in
  let appended :=
    flat_map (tab_generate_call (N:=Z) (T:=Z) "EXP1" "mAb1" "SrcA" "P1"
                "2024-01-01" 100%Z [1%Z; 3%Z] ["month"; "month"]
                ["2-8°C"; "25°C"] ["upright"; ""] [[true; true]; [true; false]]
                [1%Z; 0%Z] "DP")
      forms in
  tab1_generate "EXP1" "mAb1" "SrcA" "P1" "2024-01-01" 100%Z forms
    [1%Z; 3%Z] ["month"; "month"] ["2-8°C"; "25°C"] ["upright"; ""]
    [[true; true]; [true; false]] [1%Z; 0%Z] []
  = (NoticeSuccess "✅ Generated 10 DP samples!", ([] ++ appended)%list)
  /\ List.length appended = (2 * 5)%nat.
Proof.
  exact (X7_dp_tab_appends_and_counts (N:=Z) (T:=Z) "EXP1" "mAb1" "SrcA" "P1"
           "2024-01-01" 100%Z
           [mkFormData "F1" "" None; mkFormData "F2" "P2" (Some 50%Z)]
           [1%Z; 3%Z] ["month"; "month"] ["2-8°C"; "25°C"] ["upright"; ""]
           [[true; true]; [true; false]] [1%Z; 0%Z] []
           ltac:(discriminate) ltac:(discriminate) ltac:(discriminate)
           ltac:(discriminate) ltac:(discriminate)).
Defined.

(** X8: when one of experiment id, molecule, source and parent sample id is
    empty, each of the four "Generate" buttons shows the notice asking for
    the required study fields and leaves the session's samples untouched,
    whatever else was entered. *)
Theorem X8_required_fields_block {N T : Type} {ON : PyObject N} {OT : PyObject T}
    (exp_id molecule source parent create_date : string) (concentration : N)
    (formulations : list (FormData N))
    (times : list T) (units temps vials : list string)
    (matrix : list (list bool)) (extras : list Z)
    (ft_cycles : list Z) (surfactants : list string)
    (session_samples : list (SampleRecord N T)) :
  exp_id = "" \/ molecule = "" \/ source = "" \/ parent = "" ->
  tab1_generate exp_id molecule source parent create_date concentration
    formulations times units temps vials matrix extras session_samples
  = (NoticeError "Please fill in all required study information fields",
     session_samples)
  /\ tab2_generate exp_id molecule source parent create_date concentration
       formulations times units temps matrix extras session_samples
     = (NoticeError "Please fill in all required study information fields",
        session_samples)
  /\ tab3_generate exp_id molecule source parent create_date concentration
       formulations ft_cycles session_samples
     = (NoticeError "Please fill in all required study information fields",
        session_samples)
  /\ tab4_click exp_id molecule source parent create_date concentration
       formulations surfactants session_samples
     = Some (NoticeError "Please fill in all required study information fields",
             session_samples).
Proof.
  intros H. apply py_all_required in H.
  unfold tab1_generate, tab2_generate, tab3_generate, tab4_click.
  rewrite H. cbn [negb]. repeat split.
Qed.

Lemma X8_required_fields_block_witness :
  tab1_generate (N:=Z) (T:=Z) "EXP1" "" "SrcA" "P1" "2024-01-01" 100%Z
    [mkFormData "F1" "" None] [1%Z] ["month"] ["2-8°C"] ["upright"] [[true]]
    [0%Z] []
  = (NoticeError "Please fill in all required study information fields", [])
  /\ tab2_generate (N:=Z) (T:=Z) "EXP1" "" "SrcA" "P1" "2024-01-01" 100%Z
       [mkFormData "F1" "" None] [1%Z] ["month"] ["2-8°C"] [[true]] [0%Z] []
     = (NoticeError "Please fill in all required study information fields", [])
  /\ tab3_generate (N:=Z) (T:=Z) "EXP1" "" "SrcA" "P1" "2024-01-01" 100%Z
       [mkFormData "F1" "" None] [1%Z; 2%Z] []
     = (NoticeError "Please fill in all required study information fields", [])
  /\ tab4_click (N:=Z) (T:=Z) "EXP1" "" "SrcA" "P1" "2024-01-01" 100%Z
       [mkFormData "F1" "" None] ["PS20"] []
     = Some (NoticeError "Please fill in all required study information fields",
             []).
Proof.
  apply (X8_required_fields_block (N:=Z) (T:=Z) "EXP1" "" "SrcA" "P1"
           "2024-01-01" 100%Z [mkFormData "F1" "" None] [1%Z] ["month"]
           ["2-8°C"] ["upright"] [[true]] [0%Z] [1%Z; 2%Z] ["PS20"] []).
  right. left. reflexivity.
Defined.

(** X9: when the four study fields are filled in, "Generate F/T Samples"
    with at least one formulation and one cycle appends one record per
    formulation and cycle, formulations in order and cycles in order within
    each; the record of cycle n has the micro-label "nX FT", the freeze/thaw
    count n as text, and empty time, temperature, orientation and
    transportation columns.  The number in the success notice, formulations
    times cycles, is the number of records appended.  Without a formulation
    or without a cycle nothing is appended. *)
Theorem X9_freeze_thaw_tab {N T : Type} {ON : PyObject N} {OT : PyObject T}
    (exp_id molecule source parent create_date : string) (concentration : N)
    (ft_formulations : list (FormData N)) (ft_cycles : list Z)
    (session_samples : list (SampleRecord N T)) :
  exp_id <> "" -> molecule <> "" -> source <> "" -> parent <> "" ->
  let record form_data (cycle : Z) : SampleRecord N T :=
    create_sample_record exp_id molecule source (fd_formulation form_data)
      (resolve_parent (fd_parent form_data) parent) create_date
      (resolve_conc (fd_concentration form_data) concentration)
      (str cycle ++ "X FT") (str cycle ++ "X FT") (CStr "") "" "" "" "" ""
      (str cycle) in
  let appended :=
    flat_map (fun form_data => map (record form_data) ft_cycles)
      ft_formulations in
  (ft_formulations <> [] -> ft_cycles <> [] ->
   tab3_generate exp_id molecule source parent create_date concentration
     ft_formulations ft_cycles session_samples
   = (NoticeSuccess
        ("✅ Generated " ++ str (Z.of_nat (List.length appended))
         ++ " F/T samples!"),
      (session_samples ++ appended)%list))
  /\ (ft_formulations = [] \/ ft_cycles = [] ->
      tab3_generate exp_id molecule source parent create_date concentration
        ft_formulations ft_cycles session_samples
      = (NoticeError "Please add formulations and cycles", session_samples))
  /\ List.length appended
     = (List.length ft_formulations * List.length ft_cycles)%nat
  /\ Forall (fun r =>
         exists cycle,
           In cycle ft_cycles
           /\ Micro_Label r = str cycle ++ "X FT"
           /\ Stability_Freeze_Thaw_Count r = str cycle
           /\ Time_Point r = CStr "" /\ Time_Point_Units r = ""
           /\ Storage_Temp r = "" /\ DS_Temperature r = ""
           /\ Storage_Vial_Orientation_Conditions r = ""
           /\ Transportation r = "")
       appended.
Proof.
  intros He Hm Hs Hp record appended.
  assert (Hall : py_all [exp_id; molecule; source; parent] = true).
  { destruct (py_all [exp_id; molecule; source; parent]) eqn:E; [reflexivity|].
    apply py_all_required in E. intuition congruence. }
  assert (Hlen : List.length appended
                 = (List.length ft_formulations * List.length ft_cycles)%nat).
  { unfold appended. rewrite length_flat_map.
    induction ft_formulations as [|fd l IH]; simpl; [reflexivity|].
    rewrite length_map. unfold appended in IH. now rewrite IH. }
  split; [|split; [|split]].
  - intros Hf Hc. unfold tab3_generate. rewrite Hall. cbn [negb].
    destruct (list_truth ft_formulations) eqn:Ef;
      [|apply list_truth_false in Ef; congruence].
    destruct (list_truth ft_cycles) eqn:Ec;
      [|apply list_truth_false in Ec; congruence].
    cbn [negb orb]. f_equal.
    + rewrite Hlen, Nat2Z.inj_mul. reflexivity.
    + rewrite fold_left_appending with
        (g := fun form_data => map (record form_data) ft_cycles);
        [reflexivity|].
      intros acc fd. apply ft_form_body_spec.
  - intros Hempty. unfold tab3_generate. rewrite Hall. cbn [negb].
    destruct Hempty as [-> | ->]; [reflexivity|].
    now destruct (list_truth ft_formulations).
  - exact Hlen.
  - unfold appended. apply Forall_flat_map, Forall_forall. intros fd _.
    apply Forall_map, Forall_forall. intros cycle Hc.
    exists cycle. repeat split. exact Hc.
Qed.

Lemma X9_freeze_thaw_tab_witness :
  tab3_generate (N:=Z) (T:=Z) "EXP1" "mAb1" "SrcA" "P1" "2024-01-01" 100%Z
    [mkFormData "F1" "" None; mkFormData "F2" "" None] [1%Z; 3%Z; 5%Z] []
  = (NoticeSuccess "✅ Generated 6 F/T samples!",
     flat_map (fun form_data : FormData Z =>
         map (fun cycle : Z =>
                create_sample_record "EXP1" "mAb1" "SrcA"
                  (fd_formulation form_data) "P1" "2024-01-01" 100%Z
                  (str cycle ++ "X FT") (str cycle ++ "X FT") (CStr "") "" ""
                  "" "" "" (str cycle))
           [1%Z; 3%Z; 5%Z])
       [mkFormData "F1" "" None; mkFormData "F2" "" None]).
Proof.
  exact (proj1 (X9_freeze_thaw_tab (N:=Z) (T:=Z) "EXP1" "mAb1" "SrcA" "P1"
                  "2024-01-01" 100%Z
                  [mkFormData "F1" "" None; mkFormData "F2" "" None]
                  [1%Z; 3%Z; 5%Z] []
                  ltac:(discriminate) ltac:(discriminate) ltac:(discriminate)
                  ltac:(discriminate))
           ltac:(discriminate) ltac:(discriminate)).
Defined.

(** X10: when the four study fields are filled in and at least one
    formulation is given, "Generate DS Samples" appends the generator's DS
    records for each formulation in order, and none of the appended records
    has a vial orientation or a storage temperature; every appended record
    other than a T0 record has its DS temperature populated. *)
Theorem X10_ds_tab_records {N T : Type} {ON : PyObject N} {OT : PyObject T}
    (exp_id molecule source parent create_date : string) (concentration : N)
    (ds_formulations : list (FormData N))
    (ds_times : list T) (ds_units ds_temps : list string)
    (ds_matrix : list (list bool)) (ds_extras : list Z)
    (session_samples : list (SampleRecord N T)) :
  exp_id <> "" -> molecule <> "" -> source <> "" -> parent <> "" ->
  ds_formulations <> [] ->
  exists appended,
    tab2_generate exp_id molecule source parent create_date concentration
      ds_formulations ds_times ds_units ds_temps ds_matrix ds_extras
      session_samples
    = (NoticeSuccess "✅ Generated DS samples!",
       (session_samples ++ appended)%list)
    /\ appended
       = flat_map (fun form_data =>
             generate_stability_samples exp_id molecule source parent
               create_date concentration (fd_formulation form_data)
               (fd_parent form_data) (fd_concentration form_data) ds_times
               ds_units ds_temps [] ds_matrix ds_extras "DS")
           ds_formulations
    /\ Forall (fun r =>
           Storage_Vial_Orientation_Conditions r = ""
           /\ Storage_Temp r = ""
           /\ (is_t0_record r = false -> populated (DS_Temperature r) = true))
         appended.
Proof.
  intros He Hm Hs Hp Hf.
  assert (Hall : py_all [exp_id; molecule; source; parent] = true).
  { destruct (py_all [exp_id; molecule; source; parent]) eqn:E; [reflexivity|].
    apply py_all_required in E. intuition congruence. }
  assert (Hforms : list_truth ds_formulations = true).
  { destruct (list_truth ds_formulations) eqn:E; [reflexivity|].
    apply list_truth_false in E. congruence. }
  eexists. split; [|split; [reflexivity|]].
  - unfold tab2_generate. rewrite Hall, Hforms. cbn [negb].
    rewrite extend_loop. reflexivity.
  - apply Forall_flat_map, Forall_forall. intros fd _.
    rewrite generate_unfold. constructor.
    + repeat split. intros H. discriminate H.
    + apply Forall_app. split.
      * apply matrix_records_Forall. intros i time_pt j temp _ _ _ Ht _.
        simpl. rewrite aligned_nil. repeat split. intros _.
        now rewrite populated_truth.
      * apply extra_records_Forall. intros j temp k _ Ht _.
        simpl. rewrite aligned_nil. repeat split. intros _.
        now rewrite populated_truth.
Qed.

Lemma X10_ds_tab_records_witness :
  exists appended : list (SampleRecord Z Z),
    tab2_generate "EXP1" "mAb1" "SrcA" "P1" "2024-01-01" 100%Z
      [mkFormData "F1" "" None] [1%Z] ["month"] ["-70°C"] [[true]] [1%Z] []
    = (NoticeSuccess "✅ Generated DS samples!", ([] ++ appended)%list)
    /\ appended
       = flat_map (fun form_data : FormData Z =>
             generate_stability_samples "EXP1" "mAb1" "SrcA" "P1"
               "2024-01-01" 100%Z (fd_formulation form_data)
               (fd_parent form_data) (fd_concentration form_data) [1%Z]
               ["month"] ["-70°C"] [] [[true]] [1%Z] "DS")
           [mkFormData "F1" "" None]
    /\ Forall (fun r =>
           Storage_Vial_Orientation_Conditions r = ""
           /\ Storage_Temp r = ""
           /\ (is_t0_record r = false -> populated (DS_Temperature r) = true))
         appended.
Proof.
  apply (X10_ds_tab_records (N:=Z) (T:=Z) "EXP1" "mAb1" "SrcA" "P1"
           "2024-01-01" 100%Z [mkFormData "F1" "" None] [1%Z] ["month"]
           ["-70°C"] [[true]] [1%Z] []); discriminate.
Defined.


(** * The form's collectors *)

Lemma flat_map_keep {A B : Type} (keep : A -> bool) (f : A -> B) (l : list A) :
  flat_map (fun x => if keep x then [f x] else []) l = map f (filter keep l).
Proof.
  induction l as [|x l IH]; simpl; [reflexivity|].
  destruct (keep x); simpl; now rewrite IH.
Qed.

Lemma collect_formulations_rows (rows : list (string * string * Z)) :
  collect_formulations rows
  = map (fun row : string * string * Z =>
           mkFormData (fst (fst row)) (snd (fst row))
             (collect_concentration (snd row)))
      (filter (fun row : string * string * Z => negb (fst (fst row) =? ""))
         rows).
Proof.
  rewrite <- flat_map_keep. unfold collect_formulations.
  rewrite fold_left_appending with
    (g := fun row : string * string * Z =>
            if negb (fst (fst row) =? "")
            then [mkFormData (fst (fst row)) (snd (fst row))
                    (collect_concentration (snd row))]
            else []).
  - reflexivity.
  - intros acc [[form form_parent] form_conc]. unfold truth; simpl.
    destruct (form =? ""); simpl; [now rewrite app_nil_r|reflexivity].
Qed.

Lemma collected_formulation_row (rows : list (string * string * Z))
    (fd : FormData Z) :
  In fd (collect_formulations rows) ->
  exists form form_parent form_conc,
    In (form, form_parent, form_conc) rows /\ form <> ""
    /\ fd = mkFormData form form_parent (collect_concentration form_conc).
Proof.
  rewrite collect_formulations_rows. intros H.
  apply in_map_iff in H. destruct H as [[[form fp] fc] [<- H]].
  apply filter_In in H. destruct H as [Hin Hne]. simpl in Hne.
  exists form, fp, fc. split; [exact Hin|]. split; [|reflexivity].
  intros ->. discriminate Hne.
Qed.

(** X12: the form keeps the rows whose text is not empty, in their order,
    and drops the others with everything entered beside them: a formulation
    row gives its name, its parent and its concentration, the concentration
    kept only when it is greater than zero (a zero or negative entry becomes
    an absent override); surfactants with an empty name and cycles whose
    "Include" box is not ticked are left out. *)
Theorem X12_form_collectors (rows : list (string * string * Z))
    (surfactant_inputs : list string) (cycle_rows : list (Z * bool)) :
  collect_formulations rows
  = map (fun row : string * string * Z =>
           mkFormData (fst (fst row)) (snd (fst row))
             (if (0 <? snd row)%Z then Some (snd row) else None))
      (filter (fun row : string * string * Z => negb (fst (fst row) =? ""))
         rows)
  /\ Forall (fun fd =>
         fd_formulation fd <> ""
         /\ forall c, fd_concentration fd = Some c -> (0 < c)%Z)
       (collect_formulations rows)
  /\ collect_surfactants surfactant_inputs
     = filter (fun surf => negb (surf =? "")) surfactant_inputs
  /\ collect_cycles cycle_rows = map fst (filter snd cycle_rows).
Proof.
  split; [|split; [|split]].
  - rewrite collect_formulations_rows. apply map_ext.
    intros [[form fp] fc]. unfold collect_concentration. simpl.
    now rewrite Z.gtb_ltb.
  - apply Forall_forall. intros fd Hfd.
    apply collected_formulation_row in Hfd.
    destruct Hfd as [form [fp [fc [_ [Hne ->]]]]]. simpl. split; [exact Hne|].
    unfold collect_concentration. intros c Hc.
    destruct (Z.gtb_spec fc 0); [|discriminate Hc].
    inversion Hc; subst. lia.
  - unfold collect_surfactants.
    rewrite fold_left_appending with
      (g := fun surf : string => if negb (surf =? "") then [surf] else []).
    + simpl. rewrite flat_map_keep. apply map_id.
    + intros acc surf. unfold truth; simpl.
      destruct (surf =? ""); simpl; [now rewrite app_nil_r|reflexivity].
  - unfold collect_cycles.
    rewrite fold_left_appending with
      (g := fun row : Z * bool => if snd row then [fst row] else []).
    + simpl. apply flat_map_keep.
    + intros acc [cycle include]. simpl.
      destruct include; [reflexivity|now rewrite app_nil_r].
Qed.

(** X13: through the form, every record that "Generate DP Samples" appends
    belongs to a formulation row with a non-empty name and carries that
    name, the row's concentration when it is greater than zero and the
    default concentration otherwise, and the row's parent when it is not
    empty and the default parent otherwise. *)
Theorem X13_dp_records_of_form_rows {T : Type} {OT : PyObject T}
    (exp_id molecule source parent create_date : string) (concentration : Z)
    (rows : list (string * string * Z))
    (dp_times : list T) (dp_units dp_temps dp_vials : list string)
    (dp_matrix : list (list bool)) (dp_extras : list Z)
    (session_samples : list (SampleRecord Z T)) :
  exists appended,
    snd (tab1_generate exp_id molecule source parent create_date concentration
           (collect_formulations rows) dp_times dp_units dp_temps dp_vials
           dp_matrix dp_extras session_samples)
    = (session_samples ++ appended)%list
    /\ Forall (fun r =>
           exists form form_parent form_conc,
             In (form, form_parent, form_conc) rows
             /\ form <> ""
             /\ Formulation r = form
             /\ Conc r = (if (0 <? form_conc)%Z then form_conc
                          else concentration)
             /\ Parent r = (if form_parent =? "" then parent else form_parent))
         appended.
Proof.
  unfold tab1_generate.
  destruct (negb (py_all [exp_id; molecule; source; parent])).
  { exists []. split; [now rewrite app_nil_r|constructor]. }
  destruct (negb (list_truth (collect_formulations rows))).
  { exists []. split; [now rewrite app_nil_r|constructor]. }
  cbn [snd]. rewrite extend_loop. eexists. split; [reflexivity|].
  apply Forall_flat_map, Forall_forall. intros fd Hfd.
  apply collected_formulation_row in Hfd.
  destruct Hfd as [form [fp [fc [Hin [Hne ->]]]]].
  assert (Hc : resolve_conc (collect_concentration fc) concentration
               = if (0 <? fc)%Z then fc else concentration).
  { unfold collect_concentration, resolve_conc, truth; simpl.
    rewrite Z.gtb_ltb.
    destruct (Z.ltb_spec 0 fc) as [Hpos|Hneg]; [|reflexivity].
    destruct (Z.eqb_spec fc 0); [lia|reflexivity]. }
  assert (Hp : resolve_parent fp parent = if fp =? "" then parent else fp).
  { unfold resolve_parent, truth; simpl. now destruct (fp =? ""). }
  unfold tab_generate_call. cbn [fd_formulation fd_parent fd_concentration].
  rewrite generate_unfold.
  assert (Hrec : forall r : SampleRecord Z T,
             Formulation r = form
             /\ Conc r = resolve_conc (collect_concentration fc) concentration
             /\ Parent r = resolve_parent fp parent ->
             exists form0 form_parent form_conc,
               In (form0, form_parent, form_conc) rows /\ form0 <> ""
               /\ Formulation r = form0
               /\ Conc r = (if (0 <? form_conc)%Z then form_conc
                            else concentration)
               /\ Parent r = (if form_parent =? "" then parent
                              else form_parent)).
  { intros r [H1 [H2 H3]]. exists form, fp, fc.
    rewrite H1, H2, H3, Hc, Hp. auto. }
  constructor; [apply Hrec; repeat split|].
  apply Forall_app. split.
  - apply matrix_records_Forall. intros. apply Hrec. repeat split.
  - apply extra_records_Forall. intros. apply Hrec. repeat split.
Qed.

(** * The session state *)

Section SessionProofs.

Context {V : Type}.

Lemma state_get_set (s : list (string * V)) (k key : string) (v : V) :
  state_get (state_set s k v) key
  = if k =? key then Some v else state_get s key.
Proof.
  induction s as [|[k' v'] s IH]; simpl.
  - reflexivity.
  - destruct (String.eqb_spec k' k) as [->|Hk]; simpl.
    + now destruct (k =? key).
    + rewrite IH. destruct (String.eqb_spec k' key) as [->|Hk'];
        [|reflexivity].
      destruct (String.eqb_spec k key); [congruence|reflexivity].
Qed.

Lemma state_get_del (s : list (string * V)) (k key : string) :
  state_get (state_del s k) key
  = if k =? key then None else state_get s key.
Proof.
  induction s as [|[k' v'] s IH]; simpl.
  - now destruct (k =? key).
  - destruct (String.eqb_spec k' k) as [->|Hk]; simpl.
    + rewrite IH. now destruct (k =? key).
    + rewrite IH. destruct (String.eqb_spec k' key) as [->|Hk'];
        [|reflexivity].
      destruct (String.eqb_spec k key); [congruence|reflexivity].
Qed.

Lemma state_get_absent (s : list (string * V)) (key : string) :
  existsb (String.eqb key) (state_keys s) = false -> state_get s key = None.
Proof.
  induction s as [|[k v] s IH]; simpl; [reflexivity|].
  intros H. apply orb_false_iff in H. destruct H as [Hk Hs].
  rewrite String.eqb_sym in Hk. rewrite Hk. now apply IH.
Qed.

Lemma state_get_present (s : list (string * V)) (key : string) :
  In key (state_keys s) -> state_get s key <> None.
Proof.
  induction s as [|[k v] s IH]; simpl; [tauto|].
  intros [->|H]; [now rewrite String.eqb_refl|].
  destruct (k =? key); [discriminate|now apply IH].
Qed.

Lemma state_get_delete_others (keys : list string) :
  forall (s : list (string * V)) (key : string),
    state_get
      (fold_left (fun state k =>
           if negb (k =? "samples") then state_del state k else state)
         keys s) key
    = if negb (key =? "samples") && existsb (String.eqb key) keys
      then None else state_get s key.
Proof.
  induction keys as [|k keys IH]; intros s key; simpl.
  - now rewrite andb_false_r.
  - rewrite IH.
    destruct (String.eqb_spec key "samples") as [->|Hkey]; simpl.
    + destruct (String.eqb_spec k "samples") as [->|Hk]; simpl;
        [reflexivity|].
      rewrite state_get_del.
      destruct (String.eqb_spec k "samples"); [congruence|reflexivity].
    + destruct (existsb (String.eqb key) keys) eqn:E.
      * now rewrite orb_true_r.
      * rewrite orb_false_r.
        destruct (String.eqb_spec k "samples") as [->|Hk]; simpl.
        -- destruct (String.eqb_spec key "samples"); [congruence|reflexivity].
        -- rewrite state_get_del, (String.eqb_sym key k).
           now destruct (k =? key).
Qed.

End SessionProofs.

(** X14: after [clear_all] the session state holds the key "samples" with
    an empty sample list and no other key, whatever it held before (also
    when it held no "samples" entry). *)
Theorem X14_clear_all_resets {R W : Type}
    (session_state : list (string * session_value R W)) :
  (forall key,
      state_get (clear_all session_state) key
      = if key =? "samples" then Some (SamplesValue []) else None)
  /\ Forall (fun key => key = "samples")
       (state_keys (clear_all session_state)).
Proof.
  assert (Hget : forall key,
             state_get (clear_all session_state) key
             = if key =? "samples" then Some (SamplesValue []) else None).
  { intros key. unfold clear_all. rewrite state_get_delete_others.
    rewrite state_get_set, (String.eqb_sym "samples" key).
    destruct (key =? "samples") eqn:Ek; simpl; [reflexivity|].
    destruct (existsb (String.eqb key)
                (state_keys (state_set session_state "samples"
                               (SamplesValue []))))
      eqn:E; [reflexivity|].
    apply state_get_absent in E. rewrite state_get_set in E.
    rewrite (String.eqb_sym "samples" key), Ek in E. exact E. }
  split; [exact Hget|].
  apply Forall_forall. intros key Hkey.
  apply state_get_present in Hkey. rewrite Hget in Hkey.
  destruct (String.eqb_spec key "samples"); [assumption|congruence].
Qed.

Example clear_all_example :
  clear_all (R:=SampleRecord Z Z) (W:=string)
    [("exp_id", WidgetValue "EXP1"); ("samples", SamplesValue []);
     ("dp_form_0", WidgetValue "F1")]
  = [("samples", SamplesValue [])].
Proof. reflexivity. Qed.

(** * Micro-labels of the two study types *)

(** X15: on the same inputs the micro-labels of a DS call are those of the
    DP call, record by record, with "t0, DS" for the T0 record and with
    " DS" added at the end for the matrix-expansion records; the extra-vial
    records have the same micro-label in both study types. *)
Theorem X15_ds_micro_labels {N T : Type} {ON : PyObject N} {OT : PyObject T}
    (exp_id molecule source parent create_date : string) (conc : N)
    (formulation formulation_parent : string) (formulation_conc : option N)
    (time_points : list T) (time_units temperatures vial_orientations : list string)
    (matrix : list (list bool)) (extra_vials : list Z) :
  map Micro_Label
    (generate_stability_samples exp_id molecule source parent create_date conc
       formulation formulation_parent formulation_conc time_points time_units
       temperatures vial_orientations matrix extra_vials "DS")
  = map (fun r =>
           if is_t0_record r then "t0, DS"
           else if is_matrix_record r then Micro_Label r ++ " DS"
           else Micro_Label r)
      (generate_stability_samples exp_id molecule source parent create_date
         conc formulation formulation_parent formulation_conc time_points
         time_units temperatures vial_orientations matrix extra_vials "DP").
Proof.
  apply generate_columns_agree.
  - reflexivity.
  - intros i time_pt j temp _. cbn. unfold spec_matrix_label, is_DP. cbn.
    rewrite string_app_assoc. cbn [append].
    rewrite !string_app_assoc. reflexivity.
  - reflexivity.
Qed.
